(** * IVASMSTelegramBot: a shallow embedding of [src/telegram_bot.py]

    The bot's handlers are embedded as functions over an explicit bot
    record and an explicit world (storage collaborator, file system,
    transport, clock), and return the trace of effects they performed
    together with their outcome (returned, or raised an exception).

    Python text ([str]) is a list of Unicode code points, so that [len],
    slicing and [str.replace] count characters exactly as Python does. *)

From Stdlib Require Import Ascii String Numbers.DecimalString.
From Stdlib Require Import List ZArith NArith Bool Lia.
Import ListNotations.

Local Open Scope Z_scope.

(* ================================================================= *)
(** ** Python text *)

Module PyStr.

(** A Python [str]: a sequence of code points. *)
Definition pystr := list N.

(** Decoding of a UTF-8 byte sequence; [acc] is the code point under
    construction and [k] the number of continuation bytes still expected. *)
Fixpoint utf8_go (bs : list N) (acc : N) (k : nat) : pystr :=
  match bs with
  | [] => []
  | b :: r =>
      match k with
      | O =>
          if (b <? 128)%N then b :: utf8_go r 0%N O
          else if (b <? 224)%N then utf8_go r (b - 192)%N 1%nat
          else if (b <? 240)%N then utf8_go r (b - 224)%N 2%nat
          else utf8_go r (b - 240)%N 3%nat
      | S O => (acc * 64 + (b - 128))%N :: utf8_go r 0%N O
      | S k' => utf8_go r (acc * 64 + (b - 128))%N k'
      end
  end.

(** The text of a source literal (the source file is UTF-8). *)
Definition py (s : string) : pystr :=
  utf8_go (map N_of_ascii (list_ascii_of_string s)) 0%N O.

(** ["\n"] and ["\\"]. *)
Definition NL : N := 10%N.
Definition BACKSLASH : N := 92%N.

(** [str(n)] / [f"{n}"] for an [int]. *)
Definition str_of_int (n : Z) : pystr :=
  py (NilZero.string_of_int (Z.to_int n)).

(** [''.join(parts)]. *)
Definition join (parts : list pystr) : pystr := concat parts.

(** [text.replace(old, new)] for a pattern [old] of length 1: every
    occurrence of the character is replaced, left to right. *)
Definition replace (text : pystr) (old : N) (new : pystr) : pystr :=
  flat_map (fun x => if (x =? old)%N then new else [x]) text.

(** [len(x)]. *)
Definition len {A} (l : list A) : Z := Z.of_nat (length l).

(** [seq[:n]] for a constant [n >= 0]. *)
Definition slice_to {A} (n : Z) (l : list A) : list A :=
  firstn (Z.to_nat n) l.

(** [seq[i:]]: a negative [i] counts from the end, and an index before
    the start is taken as the start. *)
Definition slice_from {A} (i : Z) (l : list A) : list A :=
  if i <? 0 then skipn (Z.to_nat (Z.max 0 (len l + i))) l
  else skipn (Z.to_nat i) l.

End PyStr.
Import PyStr.

(* ================================================================= *)
(** ** [escape_markdown] *)

(** The loop's list [special_chars], in source order. *)
Definition special_chars : list N :=
  py "_*[]()~`>#+-=|{}.!".

(** [escape_markdown]: the source loop, one [replace] per special
    character, each replacement being ["\\" + char]. *)
Definition escape_markdown (text : pystr) : pystr :=
  fold_left (fun t char => replace t char (BACKSLASH :: [char]))
            special_chars text.

(** Membership in the reserved set. *)
Definition reserved (c : N) : bool := existsb (N.eqb c) special_chars.

(** One iteration of the loop. *)
Definition step (t : pystr) (char : N) : pystr :=
  replace t char [BACKSLASH; char].

(** What the sanitizer does to one character. *)
Definition escape_char (c : N) : pystr :=
  if reserved c then [BACKSLASH; c] else [c].

(** Escaping restricted to a list [L] of characters. *)
Definition esc_in (L : list N) (x : N) : pystr :=
  if existsb (N.eqb x) L then [BACKSLASH; x] else [x].

(** Characters that are neither reserved nor the escape character. *)
Definition plain (c : N) : bool :=
  negb (reserved c) && negb (c =? BACKSLASH)%N.

(** Number of characters of [text] satisfying [p]. *)
Definition count (p : N -> bool) (text : pystr) : nat :=
  length (filter p text).

(* ================================================================= *)
(** ** [int(str)] *)

Module PyInt.

(** Characters removed by the whitespace stripping of [int()]: the six
    ASCII ones (tab, line feed, vertical tab, form feed, carriage
    return, space) and the whitespace beyond ASCII, which [int()] turns
    into a space first.  The separators U+001C..U+001F are not
    stripped. *)
Definition is_space (c : N) : bool :=
  existsb (N.eqb c)
    [9; 10; 11; 12; 13; 32; 133; 160; 5760; 8192; 8193;
     8194; 8195; 8196; 8197; 8198; 8199; 8200; 8201; 8202; 8232; 8233;
     8239; 8287; 12288]%N.

Fixpoint lstrip (s : pystr) : pystr :=
  match s with
  | c :: r => if is_space c then lstrip r else s
  | [] => []
  end.

Definition strip (s : pystr) : pystr := rev (lstrip (rev (lstrip s))).

Definition UNDERSCORE : N := 95%N.

(** The code point of the digit zero of every block of decimal digits
    (Unicode 14.0, the database of the interpreter): ASCII first, then
    Arabic-Indic, Devanagari, ..., fullwidth, mathematical.  Each block
    holds the ten digits 0..9 in order. *)
Definition DECIMAL_ZEROS : list N :=
  [48; 1632; 1776; 1984; 2406; 2534; 2662; 2790; 2918; 3046; 3174; 3302;
   3430; 3558; 3664; 3792; 3872; 4160; 4240; 6112; 6160; 6470; 6608; 6784;
   6800; 6992; 7088; 7232; 7248; 42528; 43216; 43264; 43472; 43504; 43600;
   44016; 65296; 66720; 68912; 69734; 69872; 69942; 70096; 70384; 70736;
   70864; 71248; 71360; 71472; 71904; 72016; 72784; 73040; 73120; 92768;
   92864; 93008; 120782; 120792; 120802; 120812; 120822; 123200; 123632;
   125264; 130032]%N.

(** Value of a decimal digit, ASCII or not. *)
Definition digit_value (c : N) : option Z :=
  match find (fun z => (z <=? c) && (c <=? z + 9))%N DECIMAL_ZEROS with
  | Some z => Some (Z.of_N (c - z))
  | None => None
  end.

(** The digits of a literal: it starts and ends with a digit, and holds
    between two digits at most one underscore.  [prev_us] tells that the
    previous character was an underscore (or that no digit was read yet). *)
Fixpoint digits_go (s : pystr) (prev_us : bool) (acc : list Z)
  : option (list Z) :=
  match s with
  | [] => if prev_us then None else Some (rev acc)
  | c :: r =>
      if (c =? UNDERSCORE)%N then
        if prev_us then None else digits_go r true acc
      else
        match digit_value c with
        | Some d => digits_go r false (d :: acc)
        | None => None
        end
  end.

(** The interpreter's default bound on the number of digits of a decimal
    literal that [int()] converts ([sys.get_int_max_str_digits()]). *)
Definition int_max_str_digits : Z := 4300.

Definition value_of_digits (ds : list Z) : Z :=
  fold_left (fun v d => 10 * v + d) ds 0.

(** [int(s)]: [Some v] for the integer returned, [None] for [ValueError]. *)
Definition py_int (s : pystr) : option Z :=
  let s := strip s in
  let '(neg, body) :=
    match s with
    | c :: r =>
        if (c =? 45)%N then (true, r)
        else if (c =? 43)%N then (false, r)
        else (false, s)
    | [] => (false, s)
    end in
  match digits_go body true [] with
  | Some ds =>
      if int_max_str_digits <? len ds then None
      else Some (if neg then - value_of_digits ds else value_of_digits ds)
  | None => None
  end.

End PyInt.
Import PyInt.

(* ================================================================= *)
(** ** [datetime] and [timedelta] *)

Module DateTime.

Record datetime := mk_datetime {
  year : Z; month : Z; day : Z;
  hour : Z; minute : Z; second : Z; microsecond : Z
}.

(** A normalised [timedelta]: [0 <= seconds < 86400] and
    [0 <= microseconds < 1000000]. *)
Record timedelta := mk_timedelta {
  days : Z; seconds : Z; microseconds : Z
}.

Definition is_leap (y : Z) : bool :=
  (y mod 4 =? 0) && (negb (y mod 100 =? 0) || (y mod 400 =? 0)).

Definition days_before_year (y : Z) : Z :=
  let y := y - 1 in y * 365 + y / 4 - y / 100 + y / 400.

Definition DAYS_BEFORE_MONTH : list Z :=
  [-1; 0; 31; 59; 90; 120; 151; 181; 212; 243; 273; 304; 334].

Definition days_before_month (y m : Z) : Z :=
  nth (Z.to_nat m) DAYS_BEFORE_MONTH 0
  + (if (2 <? m) && is_leap y then 1 else 0).

Definition toordinal (d : datetime) : Z :=
  days_before_year (year d) + days_before_month (year d) (month d) + day d.

(** The [timedelta] constructor: carries microseconds into seconds and
    seconds into days, by floor division. *)
Definition new_timedelta (d s us : Z) : timedelta :=
  let total := (d * 86400 + s) * 1000000 + us in
  mk_timedelta (total / 86400000000)
               ((total mod 86400000000) / 1000000)
               (total mod 1000000).

(** [a - b] on two naive datetimes. *)
Definition datetime_sub (a b : datetime) : timedelta :=
  let secs (x : datetime) := second x + minute x * 60 + hour x * 3600 in
  new_timedelta (toordinal a - toordinal b) (secs a - secs b)
                (microsecond a - microsecond b).

(** Decimal rendering on at least [w] digits, padded with zeros. *)
Definition zero_pad (w : nat) (n : Z) : pystr :=
  let s := str_of_int n in
  repeat 48%N (w - length s) ++ s.

(** [d.strftime('%Y-%m-%d %H:%M:%S')]: the year is printed as it is
    (the C library does not pad it), the other fields on two digits. *)
Definition strftime (d : datetime) : pystr :=
  str_of_int (year d) ++ py "-" ++ zero_pad 2 (month d) ++ py "-"
  ++ zero_pad 2 (day d) ++ py " " ++ zero_pad 2 (hour d) ++ py ":"
  ++ zero_pad 2 (minute d) ++ py ":" ++ zero_pad 2 (second d).

End DateTime.
Import DateTime.

(* ================================================================= *)
(** ** The bot, its environment and its effects *)

(** An exception instance (a subclass of [Exception]): its class name
    and its [str()]. *)
Record exn := Exn { exn_class : string; exn_str : pystr }.

Inductive ParseMode := MARKDOWN | MARKDOWN_V2 | HTML.

(** The application object built by [initialize]. *)
Inductive Application := App.

(** The instance attributes; the two collaborators live in the [World]. *)
Record Bot := mk_Bot {
  token : pystr;
  admin_chat_ids : list Z;
  application : option Application;
  start_time : datetime;
  is_monitoring : bool;
  last_login_time : option datetime;
  last_fetch_time : option datetime
}.

(** What a path names on the file system. *)
Inductive FsEntry :=
| Absent
| TextFile (lines : list pystr)     (* what [readlines()] returns *)
| Unreadable (e : exn).             (* exists, but [open] raises *)

(** Everything outside the bot that the handlers consult. *)
Record World := mk_World {
  now : datetime;                          (* [datetime.now()] *)
  storage_get_otp_count : exn + Z;         (* [storage.get_otp_count()] *)
  getenv_LOG_FILE : option pystr;          (* [os.getenv("LOG_FILE")] *)
  fs : pystr -> FsEntry;
  (* [bot.send_message]: outcome of the [k]-th delivery attempt of a
     broadcast, made to [chat_id]; [None] is a delivered message *)
  bot_send_message : nat -> Z -> option exn;
  reply_text_raises : option exn;          (* [message.reply_text] *)
  format_exc : pystr                       (* [traceback.format_exc()] *)
}.

(** The inbound update and the handler context. *)
Record Update := mk_Update { effective_chat_id : Z }.
Record Context := mk_Context { args : list pystr }.

(** Observable effects, in program order. *)
Inductive event :=
| ReplyText (text : pystr) (parse_mode : option ParseMode)
| SendMessage (chat_id : Z) (text : pystr) (parse_mode : ParseMode)
              (disable_notification : bool)
| StorageGetOtpCount
| PathExists (path : pystr)
| OpenRead (path : pystr)
| LoggerError (msg : pystr).

(** A computation reads the world, threads the bot, emits events and
    either returns a value or raises. *)
Definition M (A : Type) : Type :=
  World -> Bot -> Bot * list event * (exn + A).

Definition ret {A} (a : A) : M A := fun _ b => (b, [], inr a).

Definition bind {A B} (m : M A) (k : A -> M B) : M B :=
  fun w b =>
    match m w b with
    | (b1, t1, inl e) => (b1, t1, inl e)
    | (b1, t1, inr a) =>
        let '(b2, t2, r) := k a w b1 in (b2, t1 ++ t2, r)
    end.

Definition raise {A} (e : exn) : M A := fun _ b => (b, [], inl e).
Definition emit (ev : event) : M unit := fun _ b => (b, [ev], inr tt).
Definition self : M Bot := fun _ b => (b, [], inr b).
Definition world : M World := fun w b => (b, [], inr w).

(** [try: m  except Exception as e: h e]. *)
Definition try_except {A} (m : M A) (h : exn -> M A) : M A :=
  fun w b =>
    match m w b with
    | (b1, t1, inl e) =>
        let '(b2, t2, r) := h e w b1 in (b2, t1 ++ t2, r)
    | r => r
    end.

Declare Scope py_scope.
Delimit Scope py_scope with M.
Notation "x <- m ;; k" := (bind m (fun x => k))
  (at level 61, m at next level, right associativity) : py_scope.
Notation "m ;; k" := (bind m (fun _ => k))
  (at level 61, right associativity) : py_scope.
Local Open Scope py_scope.

(** Projections of a run. *)
Definition final_bot {A} (r : Bot * list event * (exn + A)) : Bot :=
  fst (fst r).
Definition trace {A} (r : Bot * list event * (exn + A)) : list event :=
  snd (fst r).
Definition outcome {A} (r : Bot * list event * (exn + A)) : exn + A :=
  snd r.

(** The constructor [__init__]. *)
Definition init (tok : pystr) (admins : list Z) (t0 : datetime) : Bot :=
  mk_Bot tok admins None t0 false None None.

(** What [self.config_command] raises: the class defines no such
    method. *)
Definition NO_CONFIG_COMMAND : exn :=
  Exn "AttributeError"
      (py "'IVASMSTelegramBot' object has no attribute 'config_command'").

(** [initialize], on the path where the builder succeeds: the
    application is stored, the [start] and [status] handlers are added,
    and the lookup of [self.config_command] raises; the [except] clause
    logs the failure and raises it again. *)
Definition initialize : M unit :=
  fun _ b =>
    (mk_Bot (token b) (admin_chat_ids b) (Some App) (start_time b)
            (is_monitoring b) (last_login_time b) (last_fetch_time b),
     [LoggerError (py "Failed to initialize Telegram bot: "
                   ++ exn_str NO_CONFIG_COMMAND)],
     inl NO_CONFIG_COMMAND).

Definition is_admin (b : Bot) (chat_id : Z) : bool :=
  existsb (Z.eqb chat_id) (admin_chat_ids b).

Definition logger_error (msg : pystr) : M unit := emit (LoggerError msg).

Definition reply_text (text : pystr) (pm : option ParseMode) : M unit :=
  emit (ReplyText text pm) ;;
  w <- world ;;
  match reply_text_raises w with
  | Some e => raise e
  | None => ret tt
  end.

(** One [await self.application.bot.send_message(...)]. *)
Definition send_message (k : nat) (chat_id : Z) (text : pystr)
    (pm : ParseMode) (silent : bool) : M unit :=
  emit (SendMessage chat_id text pm silent) ;;
  w <- world ;;
  match bot_send_message w k chat_id with
  | Some e => raise e
  | None => ret tt
  end.

(** The [for chat_id in self.admin_chat_ids] loop; [k] numbers the
    iterations. *)
Fixpoint send_loop (k : nat) (ids : list Z) (message : pystr)
    (pm : ParseMode) (silent : bool) : M unit :=
  match ids with
  | [] => ret tt
  | chat_id :: rest =>
      try_except
        (send_message k chat_id message pm silent)
        (fun e =>
           logger_error (py "Failed to send message to admin "
                         ++ str_of_int chat_id ++ py ": " ++ exn_str e)) ;;
      send_loop (S k) rest message pm silent
  end.

Definition send_admin_message (message : pystr) (parse_mode : ParseMode)
    (disable_notification : bool) : M unit :=
  b <- self ;;
  match application b with
  | None => logger_error (py "Bot application not initialized")
  | Some _ =>
      send_loop O (admin_chat_ids b) message parse_mode
                disable_notification
  end.

(** [_get_uptime]. *)
Definition _get_uptime : M pystr :=
  b <- self ;;
  w <- world ;;
  let uptime := datetime_sub (now w) (start_time b) in
  let '(days, seconds) := (days uptime, seconds uptime) in
  let '(hours, remainder) := (seconds / 3600, seconds mod 3600) in
  let minutes := remainder / 60 in
  if 0 <? days then
    ret (str_of_int days ++ py "d " ++ str_of_int hours ++ py "h "
         ++ str_of_int minutes ++ py "m")
  else if 0 <? hours then
    ret (str_of_int hours ++ py "h " ++ str_of_int minutes ++ py "m")
  else ret (str_of_int minutes ++ py "m").

Definition UNAUTHORIZED : pystr := py "❌ Unauthorized access".

Definition start_command (update : Update) (context : Context) : M unit :=
  b <- self ;;
  if negb (is_admin b (effective_chat_id update)) then
    reply_text UNAUTHORIZED None
  else
    uptime <- _get_uptime ;;
    let status_text :=
      py "🤖 *iVASMS Telegram Bot*" ++ [NL; NL]
      ++ py "Status: "
      ++ (if is_monitoring b then py "🟢 Running" else py "🔴 Stopped")
      ++ [NL]
      ++ py "Uptime: " ++ uptime ++ [NL]
      ++ py "Admin Chat ID: `" ++ str_of_int (effective_chat_id update)
      ++ py "`" ++ [NL; NL]
      ++ py "Available commands:" ++ [NL]
      ++ py "• `/status` - Bot status" ++ [NL]
      ++ py "• `/config` - Configuration" ++ [NL]
      ++ py "• `/recent_otps` - Recent OTPs" ++ [NL]
      ++ py "• `/last_otp` - Last OTP" ++ [NL]
      ++ py "• `/new_otp` - Force fetch" ++ [NL]
      ++ py "• `/logs` - View logs" ++ [NL] in
    reply_text status_text (Some MARKDOWN_V2).

(** [await self.storage.get_otp_count()]. *)
Definition get_otp_count : M Z :=
  emit StorageGetOtpCount ;;
  w <- world ;;
  match storage_get_otp_count w with
  | inl e => raise e
  | inr n => ret n
  end.

Definition status_command (update : Update) (context : Context) : M unit :=
  b <- self ;;
  if negb (is_admin b (effective_chat_id update)) then
    reply_text UNAUTHORIZED None
  else
    uptime <- _get_uptime ;;
    let status_text :=
      py "📊 *Bot Status*" ++ [NL; NL]
      ++ py "Monitoring: "
      ++ (if is_monitoring b then py "🟢 Active" else py "🔴 Inactive")
      ++ [NL]
      ++ py "Uptime: " ++ uptime ++ [NL] in
    let status_text :=
      match last_login_time b with
      | Some t => status_text ++ py "Last Login: " ++ strftime t ++ [NL]
      | None => status_text ++ py "Last Login: Never" ++ [NL]
      end in
    let status_text :=
      match last_fetch_time b with
      | Some t => status_text ++ py "Last Fetch: " ++ strftime t ++ [NL]
      | None => status_text ++ py "Last Fetch: Never" ++ [NL]
      end in
    otp_count <- get_otp_count ;;
    let status_text :=
      status_text ++ py "Total OTPs: " ++ str_of_int otp_count ++ [NL] in
    reply_text status_text (Some MARKDOWN_V2).

(** [os.getenv("LOG_FILE", "./logs/bot.log")]. *)
Definition log_file_path (w : World) : pystr :=
  match getenv_LOG_FILE w with
  | Some p => p
  | None => py "./logs/bot.log"
  end.

(** [os.path.exists(path)]. *)
Definition path_exists (path : pystr) : M bool :=
  emit (PathExists path) ;;
  w <- world ;;
  ret (match fs w path with Absent => false | _ => true end).

(** [with open(path, "r") as f: f.readlines()]. *)
Definition readlines (path : pystr) : M (list pystr) :=
  emit (OpenRead path) ;;
  w <- world ;;
  match fs w path with
  | TextFile ls => ret ls
  | Unreadable e => raise e
  | Absent => raise (Exn "FileNotFoundError" path)
  end.

(** The part of [logs_command] after the line count is known. *)
Definition logs_tail (lines : Z) : M unit :=
  w <- world ;;
  let log_file := log_file_path w in
  found <- path_exists log_file ;;
  if negb found then
    reply_text (py "📄 Log file not found") None
  else
    all_lines <- readlines log_file ;;
    let log_lines := slice_from (- lines) all_lines in
    match log_lines with
    | [] => reply_text (py "📄 Log file is empty") None
    | _ =>
        let log_text := join log_lines in
        let response_text :=
          py "📄 *Last " ++ str_of_int (len log_lines) ++ py " log lines*"
          ++ [NL; NL] ++ py "```" ++ [NL] ++ log_text ++ [NL] ++ py "```" in
        reply_text response_text (Some MARKDOWN_V2)
    end.

Definition INVALID_NUMBER : pystr := py "❌ Invalid number format".

Definition logs_command (update : Update) (context : Context) : M unit :=
  b <- self ;;
  if negb (is_admin b (effective_chat_id update)) then
    reply_text UNAUTHORIZED None
  else
    match args context with
    | [] => logs_tail 20
    | a :: _ =>
        match py_int a with
        | Some v => logs_tail (Z.max 1 (Z.min v 100))
        | None => reply_text INVALID_NUMBER None
        end
    end.

Definition handle_message (update : Update) (context : Context) : M unit :=
  b <- self ;;
  if negb (is_admin b (effective_chat_id update)) then
    ret tt
  else
    reply_text (py "ℹ️ Use /start to see available commands")
               (Some MARKDOWN_V2).

(** The trace blob as [send_error_message] includes it. *)
Definition bounded_trace (stack_trace : pystr) : pystr :=
  if 500 <? len stack_trace then slice_to 500 stack_trace ++ py "..."
  else stack_trace.

(** The text [send_error_message] hands to the broadcast; [error] is
    [str(error)]. *)
Definition error_report (error : pystr) (stack_trace : pystr) : pystr :=
  let error_msg :=
    py "❌ *Error*" ++ [NL; NL] ++ py "`" ++ escape_markdown error
    ++ py "`" in
  error_msg ++ [NL; NL] ++ py "```" ++ [NL] ++ bounded_trace stack_trace
  ++ [NL] ++ py "```".

Definition send_error_message (error : exn) (context : pystr) : M unit :=
  try_except
    (w <- world ;;
     send_admin_message (error_report (exn_str error) (format_exc w))
                        MARKDOWN_V2 false)
    (fun e =>
       logger_error (py "Failed to send error message: " ++ exn_str e)).

Definition send_status_message (message : pystr) (is_error : bool)
  : M unit :=
  let emoji := if is_error then py "❌" else py "ℹ️" in
  send_admin_message (emoji ++ py " " ++ escape_markdown message)
                     MARKDOWN_V2 false.

(** The handlers this file defines, as the dispatcher reaches them. *)
Inductive Inbound := CmdStart | CmdStatus | CmdLogs | TextMessage.

Definition dispatch (i : Inbound) : Update -> Context -> M unit :=
  match i with
  | CmdStart => start_command
  | CmdStatus => status_command
  | CmdLogs => logs_command
  | TextMessage => handle_message
  end.

(** An event that reaches a collaborator, the file system or the
    transport, other than the reply on the inbound channel. *)
Definition is_reply (ev : event) : bool :=
  match ev with ReplyText _ _ => true | _ => false end.

Definition replies (t : list event) : list event := filter is_reply t.
Definition non_replies (t : list event) : list event :=
  filter (fun ev => negb (is_reply ev)) t.

(** Recipients of the delivery attempts of a trace, in order. *)
Definition send_attempts (t : list event) : list Z :=
  flat_map (fun ev => match ev with
                      | SendMessage c _ _ _ => [c]
                      | _ => []
                      end) t.

(** Whole seconds elapsed between the bot's construction and the
    reading of the clock. *)
Definition elapsed_microseconds (w : World) (b : Bot) : Z :=
  let secs (x : datetime) := second x + minute x * 60 + hour x * 3600 in
  ((toordinal (now w) - toordinal (start_time b)) * 86400
   + (secs (now w) - secs (start_time b))) * 1000000
  + (microsecond (now w) - microsecond (start_time b)).

Definition elapsed_seconds (w : World) (b : Bot) : Z :=
  elapsed_microseconds w b / 1000000.

(** The uptime text as the specification words it, for an elapsed time
    of [e] whole seconds. *)
Definition spec_uptime (e : Z) : pystr :=
  let d := e / 86400 in
  let h := (e mod 86400) / 3600 in
  let m := (e mod 3600) / 60 in
  if 0 <? d then
    str_of_int d ++ py "d " ++ str_of_int h ++ py "h " ++ str_of_int m
    ++ py "m"
  else if (d =? 0) && (0 <? h) then
    str_of_int h ++ py "h " ++ str_of_int m ++ py "m"
  else str_of_int m ++ py "m".

(** Sample values for the examples. *)
Definition t_2024_01_01 : datetime := mk_datetime 2024 1 1 0 0 0 0.
Definition t_2024_01_02_0100 : datetime := mk_datetime 2024 1 2 1 0 30 0.

Definition world0 : World :=
  mk_World t_2024_01_02_0100 (inr 7) None (fun _ => Absent)
           (fun _ _ => None) None [].

Definition bot0 : Bot := init (py "token") [111; 222; 333] t_2024_01_01.

(** What one iteration of the broadcast loop leaves in the trace: the
    delivery attempt and, when it fails, the error logged for it. *)
Definition delivery_events (w : World) (message : pystr) (pm : ParseMode)
    (silent : bool) (k : nat) (chat_id : Z) : list event :=
  SendMessage chat_id message pm silent
  :: match bot_send_message w k chat_id with
     | Some e =>
         [LoggerError (py "Failed to send message to admin "
                       ++ str_of_int chat_id ++ py ": " ++ exn_str e)]
     | None => []
     end.

Definition broadcast_events (w : World) (message : pystr) (pm : ParseMode)
    (silent : bool) (k : nat) (ids : list Z) : list event :=
  flat_map (fun p => delivery_events w message pm silent (fst p) (snd p))
           (combine (seq k (length ids)) ids).

(** The bot after [initialize]. *)
Definition bot1 : Bot := final_bot (initialize world0 bot0).

(** A transport on which the second delivery attempt fails. *)
Definition world_flaky : World :=
  mk_World t_2024_01_02_0100 (inr 7) None (fun _ => Absent)
           (fun k _ => match k with
                       | 1%nat => Some (Exn "TimedOut" (py "Timed out"))
                       | _ => None
                       end)
           None [].

(** A world whose pending traceback has 1000 characters. *)
Definition world_long_trace : World :=
  mk_World t_2024_01_02_0100 (inr 7) None (fun _ => Absent)
           (fun _ _ => None) None (repeat 120%N 1000).

(** Outcome of a handler whose last action is its reply. *)
Definition reply_outcome (w : World) : exn + unit :=
  match reply_text_raises w with
  | Some e => inl e
  | None => inr tt
  end.

(** The reply of [/logs] that shows the lines [tail]. *)
Definition render_log_lines (tail : list pystr) : pystr :=
  py "📄 *Last " ++ str_of_int (len tail) ++ py " log lines*"
  ++ [NL; NL] ++ py "```" ++ [NL] ++ join tail ++ [NL] ++ py "```".

(** The last [k] elements of a list (all of them when it has fewer). *)
Definition last_n {A} (k : nat) (l : list A) : list A :=
  skipn (length l - k) l.

Fixpoint pystr_eqb (a b : pystr) : bool :=
  match a, b with
  | [], [] => true
  | x :: a', y :: b' => (x =? y)%N && pystr_eqb a' b'
  | _, _ => false
  end.

(** A world whose default log file holds the lines [ls]. *)
Definition world_logs (ls : list pystr) : World :=
  mk_World t_2024_01_02_0100 (inr 7) None
           (fun p => if pystr_eqb p (py "./logs/bot.log")
                     then TextFile ls else Absent)
           (fun _ _ => None) None [].

Definition five_lines : list pystr :=
  [py "one" ++ [NL]; py "two" ++ [NL]; py "three" ++ [NL];
   py "four" ++ [NL]; py "five" ++ [NL]].

(** A world whose storage collaborator is unavailable. *)
Definition storage_down : exn :=
  Exn "ConnectionError" (py "storage unavailable").

Definition world_storage_down : World :=
  mk_World t_2024_01_02_0100 (inl storage_down) None (fun _ => Absent)
           (fun _ _ => None) None [].

(** An update from the admin 111, and one from a stranger. *)
Definition from_admin : Update := mk_Update 111.
Definition from_stranger : Update := mk_Update 999.
Definition no_args : Context := mk_Context [].

(* ================================================================= *)
(** ** [run] *)

(** What [self.application.run_polling()] raises while [application]
    is still [None]. *)
Definition NO_RUN_POLLING : exn :=
  Exn "AttributeError"
      (py "'NoneType' object has no attribute 'run_polling'").

(** [await self.application.run_polling()]; [polling] is what the call
    does on an application: it returns ([None]) or raises. *)
Definition run_polling (polling : option exn) : M unit :=
  b <- self ;;
  match application b with
  | None => raise NO_RUN_POLLING
  | Some _ =>
      match polling with
      | Some e => raise e
      | None => ret tt
      end
  end.

(** The world as [n] delivery attempts later: its attempt [k] is the
    attempt [n + k] of [w]. *)
Definition later (n : nat) (w : World) : World :=
  mk_World (now w) (storage_get_otp_count w) (getenv_LOG_FILE w) (fs w)
           (fun k chat_id => bot_send_message w (n + k) chat_id)
           (reply_text_raises w) (format_exc w).

Definition at_later {A} (n : nat) (m : M A) : M A :=
  fun w b => m (later n w) b.

(** [run].  The [logger.info] record leaves no event (the trace keeps
    the error records only); the handler ends with a bare [raise].
    The deliveries of the error report come after those of the start
    notice: their attempts are numbered from the length of the admin
    list on, so that the two broadcasts fail independently. *)
Definition run (polling : option exn) : M unit :=
  try_except
    (send_status_message (py "Bot started") false ;;
     run_polling polling)
    (fun e =>
       b <- self ;;
       at_later (length (admin_chat_ids b))
         (logger_error (py "Telegram bot error: " ++ exn_str e) ;;
          send_error_message e (py "Bot runtime") ;;
          raise e)).

(* ================================================================= *)
(** ** Auxiliary definitions for the properties *)

(** Reading an escaped text back: an escape character in front of a
    reserved character is dropped. *)
Fixpoint unescape (t : pystr) : pystr :=
  match t with
  | [] => []
  | x :: tl =>
      if (x =? BACKSLASH)%N then
        match tl with
        | c :: r => if reserved c then c :: unescape r
                    else x :: unescape tl
        | [] => [x]
        end
      else x :: unescape tl
  end.

(** The text [_get_uptime] returns. *)
Definition uptime_text (w : World) (b : Bot) : pystr :=
  match outcome (_get_uptime w b) with
  | inr t => t
  | inl _ => []
  end.

(** The hint sent for non-command text. *)
Definition HINT : pystr := py "ℹ️ Use /start to see available commands".

Definition is_storage_call (ev : event) : bool :=
  match ev with StorageGetOtpCount => true | _ => false end.

Definition is_file_access (ev : event) : bool :=
  match ev with PathExists _ | OpenRead _ => true | _ => false end.

Definition is_logger_error (ev : event) : bool :=
  match ev with LoggerError _ => true | _ => false end.

(** A world whose log file exists and cannot be opened. *)
Definition permission_denied : exn :=
  Exn "PermissionError" (py "[Errno 13] Permission denied").

Definition world_unreadable : World :=
  mk_World t_2024_01_02_0100 (inr 7) None
           (fun _ => Unreadable permission_denied)
           (fun _ _ => None) None [].

(** A world whose clock reads one second before [bot0] was built. *)
Definition world_set_back : World :=
  mk_World (mk_datetime 2023 12 31 23 59 59 0) (inr 7) None
           (fun _ => Absent) (fun _ _ => None) None [].

(** A log file of 250 lines. *)
Definition many_lines : list pystr :=
  map (fun k => str_of_int (Z.of_nat k) ++ [NL]) (seq 0 250).

(** A transport on which only the fifth delivery attempt fails. *)
Definition world_fifth_fails : World :=
  mk_World t_2024_01_02_0100 (inr 7) None (fun _ => Absent)
           (fun k _ => match k with
                       | 4%nat => Some (Exn "TimedOut" (py "Timed out"))
                       | _ => None
                       end)
           None [].

(** A bot that has logged in and fetched, in the year 999 and in 2024. *)
Definition bot_dated : Bot :=
  mk_Bot (py "token") [111] (Some App) t_2024_01_01 true
         (Some (mk_datetime 999 12 31 23 59 59 0))
         (Some (mk_datetime 2024 1 2 0 30 5 0)).

(* ================================================================= *)
(** * Properties *)

(* ================================================================= *)
(** ** The model on concrete inputs *)

Example py_code_points : py "❌ ok" = [10060; 32; 111; 107]%N.
Proof. reflexivity. Qed.

Example str_of_int_values :
  str_of_int 0 = py "0" /\ str_of_int 25 = py "25"
  /\ str_of_int (-3) = py "-3".
Proof. repeat split; reflexivity. Qed.

Example escape_markdown_values :
  escape_markdown (py "a_b.c!") = py "a\_b\.c\!"
  /\ escape_markdown (py "x\y") = py "x\y"
  /\ escape_markdown (py "1+1=2") = py "1\+1\=2".
Proof. repeat split; reflexivity. Qed.

Example py_int_values :
  py_int (py "20") = Some 20 /\ py_int (py "-5") = Some (-5)
  /\ py_int (py "+7") = Some 7 /\ py_int (py "007") = Some 7
  /\ py_int (py "1_000") = Some 1000 /\ py_int (py " 12 ") = Some 12
  /\ py_int (py "") = None /\ py_int (py "-") = None
  /\ py_int (py "1__0") = None /\ py_int (py "_1") = None
  /\ py_int (py "1_") = None /\ py_int (py "12a") = None
  /\ py_int (py "0x10") = None /\ py_int (py "1.5") = None
  /\ py_int (py "- 5") = None.
Proof. repeat split; reflexivity. Qed.

Example slice_values :
  slice_from (-2) [1; 2; 3] = [2; 3] /\ slice_from (-5) [1; 2; 3] = [1; 2; 3]
  /\ slice_from (-1) (@nil Z) = [] /\ slice_to 2 [1; 2; 3] = [1; 2].
Proof. repeat split; reflexivity. Qed.

Example strftime_value :
  strftime (mk_datetime 2024 3 9 7 5 0 0) = py "2024-03-09 07:05:00".
Proof. reflexivity. Qed.

Example py_int_unicode_values :
  py_int [1633; 1634]%N = Some 12            (* Arabic-Indic digits *)
  /\ py_int [65297; 65298]%N = Some 12       (* fullwidth digits *)
  /\ py_int [45; 1635]%N = Some (-3)
  /\ py_int [49; 1634]%N = Some 12           (* mixed scripts *)
  /\ py_int [160; 49; 50; 12288]%N = Some 12 (* non-ASCII whitespace *)
  /\ py_int [28; 49; 50]%N = None            (* U+001C is not stripped *)
  /\ py_int [49; 50; 31]%N = None
  /\ py_int [178]%N = None                   (* superscript two *)
  /\ py_int [1631; 49]%N = None.
Proof. repeat split; reflexivity. Qed.

Example strftime_short_year :
  strftime (mk_datetime 999 12 31 23 59 59 0) = py "999-12-31 23:59:59".
Proof. reflexivity. Qed.

Example datetime_sub_value :
  datetime_sub (mk_datetime 2024 3 1 0 0 0 0) (mk_datetime 2024 2 28 23 0 0 5)
  = mk_timedelta 1 3599 999995.
Proof. reflexivity. Qed.

(* ================================================================= *)
(** ** The sanitizer *)

Lemma replace_flat_map (f : N -> pystr) (c : N) (new : pystr) (t : pystr) :
  replace (flat_map f t) c new = flat_map (fun x => replace (f x) c new) t.
Proof.
  unfold replace. induction t as [|x t IH]; simpl; [reflexivity|].
  rewrite flat_map_app. now rewrite IH.
Qed.

Lemma existsb_snoc (x c : N) (L : list N) :
  existsb (N.eqb x) (L ++ [c]) = existsb (N.eqb x) L || (x =? c)%N.
Proof. rewrite existsb_app. simpl. now rewrite orb_false_r. Qed.

Lemma step_esc_in (L : list N) (c x : N) :
  ~ In c L -> c <> BACKSLASH ->
  replace (esc_in L x) c [BACKSLASH; c] = esc_in (L ++ [c]) x.
Proof.
  intros HcL Hc. unfold esc_in, replace. rewrite existsb_snoc.
  destruct (existsb (N.eqb x) L) eqn:HxL; cbn [orb flat_map app].
  - apply existsb_exists in HxL. destruct HxL as (y & Hy & Hxy).
    apply N.eqb_eq in Hxy. subst y.
    assert (Hb : (BACKSLASH =? c)%N = false)
      by (apply N.eqb_neq; congruence).
    assert (Hx : (x =? c)%N = false) by (apply N.eqb_neq; congruence).
    rewrite Hb, Hx. reflexivity.
  - destruct (x =? c)%N eqn:Hxc; cbn [app]; [|reflexivity].
    apply N.eqb_eq in Hxc. now subst x.
Qed.

Lemma fold_step_esc_in (L : list N) :
  NoDup L -> ~ In BACKSLASH L ->
  forall t, fold_left step L t = flat_map (esc_in L) t.
Proof.
  induction L as [|c L IH] using rev_ind; intros Hnd Hbs t.
  - simpl. induction t as [|x t IHt]; simpl; [reflexivity|].
    now rewrite <- IHt.
  - rewrite fold_left_app. simpl. unfold step at 1.
    apply NoDup_remove in Hnd. rewrite app_nil_r in Hnd.
    destruct Hnd as [Hnd HcL].
    rewrite IH; [|assumption|intro; apply Hbs; apply in_or_app; now left].
    rewrite replace_flat_map. apply flat_map_ext. intro x.
    apply step_esc_in; [assumption|].
    intro; subst c. apply Hbs. apply in_or_app. right. now left.
Qed.

Lemma special_chars_NoDup : NoDup special_chars.
Proof.
  let l := eval vm_compute in special_chars in change (NoDup l).
  repeat (constructor;
          [ intro H; repeat (destruct H as [H|H]; [discriminate H|]);
            exact H | ]).
  constructor.
Qed.

Lemma backslash_not_special : ~ In BACKSLASH special_chars.
Proof.
  let l := eval vm_compute in special_chars in change (~ In BACKSLASH l).
  intro H; repeat (destruct H as [H|H]; [discriminate H|]); exact H.
Qed.

(** The loop of replacements is a character-by-character map. *)
Lemma escape_markdown_flat_map (text : pystr) :
  escape_markdown text = flat_map escape_char text.
Proof.
  unfold escape_markdown.
  exact (fold_step_esc_in special_chars special_chars_NoDup
           backslash_not_special text).
Qed.

Lemma escape_markdown_app (a b : pystr) :
  escape_markdown (a ++ b) = escape_markdown a ++ escape_markdown b.
Proof. rewrite !escape_markdown_flat_map. apply flat_map_app. Qed.

Lemma escape_markdown_cons (x : N) (t : pystr) :
  escape_markdown (x :: t) = escape_char x ++ escape_markdown t.
Proof. rewrite !escape_markdown_flat_map. reflexivity. Qed.


Lemma reserved_backslash : reserved BACKSLASH = false.
Proof. reflexivity. Qed.

Lemma count_app (p : N -> bool) (a b : pystr) :
  count p (a ++ b) = (count p a + count p b)%nat.
Proof. unfold count. now rewrite filter_app, length_app. Qed.

Lemma count_escape_char (c : N) :
  count plain (escape_char c) = count plain [c]
  /\ count (fun x => negb (reserved x)) (escape_char c)
     = (count (fun x => negb (reserved x)) [c] + count reserved [c])%nat.
Proof.
  unfold escape_char, count, plain. simpl.
  destruct (reserved c) eqn:Hc; simpl; rewrite ?Hc; simpl; split;
    reflexivity.
Qed.

(** C4, as stated, fails: the escape characters the sanitizer inserts
    are themselves outside the reserved set, so one reserved character
    in the input raises the number of non-reserved characters from 0
    to 1. *)
Lemma escape_markdown_count_counterexample :
  escape_markdown (py "_") = py "\_"
  /\ count (fun c => negb (reserved c)) (py "_") = 0%nat
  /\ count (fun c => negb (reserved c)) (escape_markdown (py "_")) = 1%nat.
Proof. repeat split; reflexivity. Qed.

(** C4, amended: the escape operation leaves unchanged the number of
    characters that are neither reserved nor the escape character; the
    number of non-reserved characters grows by one escape character per
    reserved character of the input. *)
Theorem escape_markdown_count (text : pystr) :
  count plain (escape_markdown text) = count plain text
  /\ count (fun c => negb (reserved c)) (escape_markdown text)
     = (count (fun c => negb (reserved c)) text + count reserved text)%nat.
Proof.
  induction text as [|c t [IH1 IH2]].
  - split; reflexivity.
  - rewrite escape_markdown_cons, !count_app.
    change (c :: t) with ([c] ++ t). rewrite !count_app.
    destruct (count_escape_char c) as [E1 E2].
    rewrite E1, E2, IH1, IH2. split; lia.
Qed.

Lemma filter_plain_escape_char (c : N) :
  filter plain (escape_char c) = filter plain [c].
Proof.
  unfold escape_char. destruct (reserved c) eqn:Hc; [|reflexivity].
  cbn [filter]. change (plain BACKSLASH) with false.
  unfold plain. rewrite Hc. reflexivity.
Qed.

Lemma nth_error_escape_reserved (text : pystr) :
  forall i c,
    nth_error (flat_map escape_char text) i = Some c ->
    reserved c = true ->
    exists j, i = S j
              /\ nth_error (flat_map escape_char text) j = Some BACKSLASH.
Proof.
  induction text as [|x t IH]; intros i c Hi Hc.
  - destruct i; discriminate Hi.
  - simpl in Hi |- *. unfold escape_char in *.
    destruct (reserved x) eqn:Hx; simpl in Hi |- *.
    + destruct i as [|[|i]]; simpl in Hi.
      * injection Hi as <-. discriminate Hc.
      * exists O. split; reflexivity.
      * destruct (IH _ _ Hi Hc) as (j & -> & Hj).
        exists (S (S j)). split; [reflexivity|exact Hj].
    + destruct i as [|i]; simpl in Hi.
      * injection Hi as <-. congruence.
      * destruct (IH _ _ Hi Hc) as (j & -> & Hj).
        exists (S j). split; [reflexivity|exact Hj].
Qed.

Lemma special_chars_code_points :
  special_chars
  = [95; 42; 91; 93; 40; 41; 126; 96; 62; 35; 43; 45; 61; 124; 123; 125;
     46; 33]%N.
Proof. vm_compute. reflexivity. Qed.

(** C7: the output is the input with every reserved character replaced
    by the escape character followed by that character and every other
    character kept as it is; hence every reserved character of the
    output is immediately preceded by the escape character; the empty
    text maps to the empty text; and a newline is an ordinary
    character, so text is escaped the same on one line or on several.
    The reserved characters are exactly the eighteen of the fixed set,
    [_ * [ ] ( ) ~ ` > # + - = | { } . !], here by code point, and the
    escape character is the backslash. *)
Theorem escape_markdown_spec (text : pystr) :
  escape_markdown text
  = flat_map (fun c => if reserved c then [BACKSLASH; c] else [c]) text
  /\ (forall i c,
        nth_error (escape_markdown text) i = Some c ->
        reserved c = true ->
        exists j, i = S j
                  /\ nth_error (escape_markdown text) j = Some BACKSLASH)
  /\ filter plain (escape_markdown text) = filter plain text
  /\ escape_markdown [] = []
  /\ (forall a b,
        escape_markdown (a ++ NL :: b)
        = escape_markdown a ++ NL :: escape_markdown b)
  /\ (forall c,
        reserved c = true
        <-> In c [95; 42; 91; 93; 40; 41; 126; 96; 62; 35; 43; 45; 61; 124;
                  123; 125; 46; 33]%N)
  /\ BACKSLASH = 92%N
  /\ escape_markdown (py "_*[]()~`>#+-=|{}.!")
     = py "\_\*\[\]\(\)\~\`\>\#\+\-\=\|\{\}\.\!".
Proof.
  split; [apply escape_markdown_flat_map|].
  split; [rewrite escape_markdown_flat_map;
          apply nth_error_escape_reserved|].
  split.
  { induction text as [|c t IH]; [reflexivity|].
    rewrite escape_markdown_cons, filter_app, IH, filter_plain_escape_char.
    cbn [filter]. destruct (plain c); reflexivity. }
  split; [reflexivity|].
  split.
  { intros a b. rewrite escape_markdown_app.
    now rewrite (escape_markdown_cons NL b). }
  split.
  { intro c. unfold reserved. rewrite special_chars_code_points. split.
    - intro H. apply existsb_exists in H. destruct H as (x & Hin & Heq).
      apply N.eqb_eq in Heq. now subst x.
    - intro H. apply existsb_exists. exists c. split; [exact H|].
      apply N.eqb_refl. }
  split; [reflexivity|]. vm_compute. reflexivity.
Qed.

(* ================================================================= *)
(** ** The uptime clock *)

Lemma uptime_days (w : World) (b : Bot) :
  days (datetime_sub (now w) (start_time b)) = elapsed_seconds w b / 86400.
Proof.
  unfold datetime_sub, new_timedelta, elapsed_seconds, elapsed_microseconds.
  cbn [days]. rewrite Z.div_div by lia. reflexivity.
Qed.

Lemma uptime_seconds (w : World) (b : Bot) :
  seconds (datetime_sub (now w) (start_time b))
  = elapsed_seconds w b mod 86400.
Proof.
  unfold datetime_sub, new_timedelta, elapsed_seconds, elapsed_microseconds.
  cbn [seconds]. Z.div_mod_to_equations. lia.
Qed.

Lemma mod_86400_3600 (e : Z) : (e mod 86400) mod 3600 = e mod 3600.
Proof. Z.div_mod_to_equations. lia. Qed.

(** The code's result in terms of the elapsed seconds, whatever their
    sign. *)
Lemma get_uptime_run (w : World) (b : Bot) :
  _get_uptime w b
  = (b, [],
     inr (let e := elapsed_seconds w b in
          let d := e / 86400 in
          let h := (e mod 86400) / 3600 in
          let m := (e mod 3600) / 60 in
          if 0 <? d then
            str_of_int d ++ py "d " ++ str_of_int h ++ py "h "
            ++ str_of_int m ++ py "m"
          else if 0 <? h then
            str_of_int h ++ py "h " ++ str_of_int m ++ py "m"
          else str_of_int m ++ py "m")).
Proof.
  unfold _get_uptime, bind, self, world; cbn [app].
  rewrite uptime_days, uptime_seconds, mod_86400_3600. cbn zeta.
  destruct (0 <? elapsed_seconds w b / 86400); [reflexivity|].
  destruct (0 <? elapsed_seconds w b mod 86400 / 3600); reflexivity.
Qed.

(** C5: for a non-negative elapsed time of [e] whole seconds, the
    uptime is the text the specification describes: [d] whole days,
    [h] hours in 0..23 and [m] minutes in 0..59, the remaining seconds
    dropped, rendered with the most significant non-zero unit first;
    the boundary table of the specification follows. *)
Theorem get_uptime_spec (w : World) (b : Bot) :
  let e := elapsed_seconds w b in
  0 <= e ->
  let d := e / 86400 in
  let h := (e mod 86400) / 3600 in
  let m := (e mod 3600) / 60 in
  (0 <= d /\ 0 <= h <= 23 /\ 0 <= m <= 59
   /\ d * 86400 + h * 3600 + m * 60 <= e
      < d * 86400 + h * 3600 + m * 60 + 60)
  /\ _get_uptime w b = (b, [], inr (spec_uptime e))
  /\ (e = 0 -> outcome (_get_uptime w b) = inr (py "0m"))
  /\ (e = 59 -> outcome (_get_uptime w b) = inr (py "0m"))
  /\ (e = 60 -> outcome (_get_uptime w b) = inr (py "1m"))
  /\ (e = 3599 -> outcome (_get_uptime w b) = inr (py "59m"))
  /\ (e = 3600 -> outcome (_get_uptime w b) = inr (py "1h 0m"))
  /\ (e = 90000 -> outcome (_get_uptime w b) = inr (py "1d 1h 0m")).
Proof.
  intros e He d h m.
  assert (Hrun : _get_uptime w b = (b, [], inr (spec_uptime e))).
  { rewrite get_uptime_run. unfold spec_uptime. fold e. cbn zeta.
    fold d h m. destruct (0 <? d) eqn:Hd; [reflexivity|].
    assert (d = 0) as ->.
    { apply Z.ltb_ge in Hd. subst d. Z.div_mod_to_equations. lia. }
    reflexivity. }
  split.
  { subst d h m. Z.div_mod_to_equations. lia. }
  split; [exact Hrun|].
  rewrite Hrun. unfold outcome. cbn [snd].
  repeat split; intros ->; reflexivity.
Qed.

(** A clock read before [start_time] (the wall clock was set back):
    the days are negative and the text comes from the hours branch. *)
Example get_uptime_clock_set_back :
  elapsed_seconds (mk_World t_2024_01_01 (inr 7) None (fun _ => Absent)
                            (fun _ _ => None) None [])
                  (init (py "token") [111] t_2024_01_02_0100) = -90030
  /\ outcome (_get_uptime
                (mk_World t_2024_01_01 (inr 7) None (fun _ => Absent)
                          (fun _ _ => None) None [])
                (init (py "token") [111] t_2024_01_02_0100))
     = inr (py "22h 59m").
Proof. split; reflexivity. Qed.

Lemma get_uptime_spec_witness :
  0 <= elapsed_seconds world0 bot0
  /\ _get_uptime world0 bot0 = (bot0, [], inr (py "1d 1h 0m")).
Proof.
  split; [vm_compute; discriminate|].
  destruct (get_uptime_spec world0 bot0) as (_ & H & _).
  - vm_compute; discriminate.
  - rewrite H. reflexivity.
Defined.

(* ================================================================= *)
(** ** The broadcast *)

Lemma send_loop_run (w : World) (b : Bot) (message : pystr)
    (pm : ParseMode) (silent : bool) (ids : list Z) :
  forall k,
    send_loop k ids message pm silent w b
    = (b, broadcast_events w message pm silent k ids, inr tt).
Proof.
  induction ids as [|chat_id rest IH]; intro k; [reflexivity|].
  cbn [send_loop]. unfold bind at 1.
  unfold try_except, send_message, logger_error.
  unfold bind, emit, world, raise, ret.
  unfold broadcast_events, delivery_events in *.
  cbn [length seq combine flat_map fst snd].
  destruct (bot_send_message w k chat_id) as [e|]; cbn beta iota;
    rewrite IH; reflexivity.
Qed.

Lemma send_attempts_app (t1 t2 : list event) :
  send_attempts (t1 ++ t2) = send_attempts t1 ++ send_attempts t2.
Proof. apply flat_map_app. Qed.

Lemma send_attempts_broadcast (w : World) (message : pystr)
    (pm : ParseMode) (silent : bool) (ids : list Z) :
  forall k, send_attempts (broadcast_events w message pm silent k ids) = ids.
Proof.
  unfold broadcast_events.
  induction ids as [|chat_id rest IH]; intro k; [reflexivity|].
  cbn [length seq combine flat_map fst snd].
  rewrite send_attempts_app, IH. unfold delivery_events.
  destruct (bot_send_message w k chat_id); reflexivity.
Qed.

Lemma broadcast_events_logs_failure (w : World) (message : pystr)
    (pm : ParseMode) (silent : bool) (ids : list Z) :
  forall k0 k chat_id e,
    nth_error ids k = Some chat_id ->
    bot_send_message w (k0 + k) chat_id = Some e ->
    In (LoggerError (py "Failed to send message to admin "
                     ++ str_of_int chat_id ++ py ": " ++ exn_str e))
       (broadcast_events w message pm silent k0 ids).
Proof.
  unfold broadcast_events.
  induction ids as [|c rest IH]; intros k0 k chat_id e Hk He.
  - destruct k; discriminate Hk.
  - cbn [length seq combine flat_map fst snd]. apply in_or_app.
    destruct k as [|k].
    + left. injection Hk as ->. rewrite Nat.add_0_r in He.
      unfold delivery_events. rewrite He. right. left. reflexivity.
    + right. apply (IH (S k0) k chat_id e Hk).
      now rewrite Nat.add_succ_comm.
Qed.

(** The broadcast never raises and leaves the bot as it was. *)
Lemma send_admin_message_returns (w : World) (b : Bot) (message : pystr)
    (pm : ParseMode) (silent : bool) :
  outcome (send_admin_message message pm silent w b) = inr tt
  /\ final_bot (send_admin_message message pm silent w b) = b.
Proof.
  unfold send_admin_message, bind, self. cbn [app].
  destruct (application b).
  - rewrite send_loop_run. split; reflexivity.
  - split; reflexivity.
Qed.

(** C8: once the application is initialised, the broadcast makes one
    delivery attempt per entry of the admin list, in order, whichever
    attempts fail; each failed attempt is followed by the error logged
    for it and by the attempts to the remaining recipients; the
    broadcast itself returns normally.  With three admins and a failing
    second delivery, the first and the third are still attempted. *)
Theorem send_admin_message_attempts_all (w : World) (b : Bot)
    (message : pystr) (pm : ParseMode) (silent : bool) :
  application b <> None ->
  let r := send_admin_message message pm silent w b in
  send_attempts (trace r) = admin_chat_ids b
  /\ trace r = broadcast_events w message pm silent O (admin_chat_ids b)
  /\ (forall k chat_id e,
        nth_error (admin_chat_ids b) k = Some chat_id ->
        bot_send_message w k chat_id = Some e ->
        In (LoggerError (py "Failed to send message to admin "
                         ++ str_of_int chat_id ++ py ": " ++ exn_str e))
           (trace r))
  /\ outcome r = inr tt
  /\ final_bot r = b.
Proof.
  intros Happ r. subst r.
  unfold send_admin_message, bind, self. cbn [app].
  destruct (application b) as [a|]; [|contradiction].
  rewrite send_loop_run. unfold trace, outcome, final_bot. cbn [fst snd].
  rewrite send_attempts_broadcast. repeat split.
  intros k chat_id e Hk He.
  exact (broadcast_events_logs_failure w message pm silent _ O k chat_id e
           Hk He).
Qed.

Lemma send_admin_message_attempts_all_witness :
  application bot1 <> None
  /\ trace (send_admin_message (py "hello") MARKDOWN_V2 false
                               world_flaky bot1)
     = [ SendMessage 111 (py "hello") MARKDOWN_V2 false;
         SendMessage 222 (py "hello") MARKDOWN_V2 false;
         LoggerError
           (py "Failed to send message to admin 222: Timed out");
         SendMessage 333 (py "hello") MARKDOWN_V2 false ]
  /\ send_attempts (trace (send_admin_message (py "hello") MARKDOWN_V2
                                              false world_flaky bot1))
     = [111; 222; 333].
Proof.
  assert (H : application bot1 <> None) by (vm_compute; discriminate).
  destruct (send_admin_message_attempts_all world_flaky bot1 (py "hello")
              MARKDOWN_V2 false H) as (Hall & Htrace & _).
  split; [exact H|]. split; [rewrite Htrace; reflexivity|exact Hall].
Defined.

(** C10: while the application field is unset, the broadcast logs one
    error and returns: it does not raise, attempts no delivery and
    leaves the bot unchanged, whatever the message, the parse mode and
    the notification flag. *)
Theorem send_admin_message_uninitialized (w : World) (b : Bot)
    (message : pystr) (pm : ParseMode) (silent : bool) :
  application b = None ->
  send_admin_message message pm silent w b
  = (b, [LoggerError (py "Bot application not initialized")], inr tt)
  /\ send_attempts (trace (send_admin_message message pm silent w b)) = [].
Proof.
  intro Happ. unfold send_admin_message, bind, self. cbn [app].
  rewrite Happ. split; reflexivity.
Qed.

Lemma send_admin_message_uninitialized_witness :
  application bot0 = None
  /\ outcome (send_admin_message (py "hello") HTML true world_flaky bot0)
     = inr tt
  /\ send_attempts (trace (send_admin_message (py "hello") HTML true
                                              world_flaky bot0)) = [].
Proof.
  destruct (send_admin_message_uninitialized world_flaky bot0 (py "hello")
              HTML true eq_refl) as [Hrun Hnone].
  split; [reflexivity|]. split; [rewrite Hrun; reflexivity|exact Hnone].
Defined.

(* ================================================================= *)
(** ** The error notifier *)

Lemma len_firstn_500 (st : pystr) :
  500 < len st -> len (slice_to 500 st) = 500.
Proof.
  unfold len, slice_to. intro H. rewrite length_firstn.
  rewrite Nat.min_l; lia.
Qed.

(** C9: the report handed to the broadcast carries the trace as it is
    when it has at most 500 characters; a longer trace is replaced by
    its first 500 characters followed by the marker [...]; a trace of
    1000 characters becomes 500 characters and the marker. *)
Theorem send_error_message_bounds_trace (w : World) (b : Bot)
    (error : exn) (context : pystr) :
  let st := format_exc w in
  let blob := if len st <=? 500 then st else firstn 500 st ++ py "..." in
  send_error_message error context w b
  = send_admin_message
      (py "❌ *Error*" ++ [NL; NL] ++ py "`"
       ++ escape_markdown (exn_str error) ++ py "`"
       ++ [NL; NL] ++ py "```" ++ [NL] ++ blob ++ [NL] ++ py "```")
      MARKDOWN_V2 false w b
  /\ (len st <= 500 -> blob = st)
  /\ (500 < len st ->
      blob = firstn 500 st ++ py "..." /\ len (firstn 500 st) = 500)
  /\ (len st = 1000 -> len blob = 503).
Proof.
  intros st blob.
  assert (Hblob : bounded_trace st = blob).
  { unfold bounded_trace, blob, slice_to.
    destruct (500 <? len st) eqn:H1; destruct (len st <=? 500) eqn:H2;
      try reflexivity; lia. }
  split.
  { unfold send_error_message, try_except, bind, world. cbn [app].
    fold st. unfold error_report. rewrite Hblob.
    rewrite <- !app_assoc.
    pose proof (send_admin_message_returns w b
      (py "❌ *Error*" ++ [NL; NL] ++ py "`"
       ++ escape_markdown (exn_str error) ++ py "`"
       ++ [NL; NL] ++ py "```" ++ [NL] ++ blob ++ [NL] ++ py "```")
      MARKDOWN_V2 false) as [Hout _].
    destruct (send_admin_message _ MARKDOWN_V2 false w b) as [[b1 t1] r].
    unfold outcome in Hout. cbn [snd] in Hout. subst r. reflexivity. }
  split.
  { intro H. unfold blob. destruct (len st <=? 500) eqn:E; [reflexivity|lia]. }
  split.
  { intro H. unfold blob. destruct (len st <=? 500) eqn:E; [lia|].
    split; [reflexivity|]. exact (len_firstn_500 st H). }
  intro H. unfold blob. destruct (len st <=? 500) eqn:E; [lia|].
  unfold len in *. rewrite length_app, length_firstn.
  change (length (py "...")) with 3%nat. lia.
Qed.

(** The example of the specification: a trace of 1000 characters. *)
Example send_error_message_long_trace :
  len (format_exc world_long_trace) = 1000
  /\ send_error_message (Exn "RuntimeError" (py "boom!")) (py "Bot runtime")
       world_long_trace bot1
     = (bot1,
        map (fun chat_id =>
               SendMessage chat_id
                 (py "❌ *Error*" ++ [NL; NL] ++ py "`boom\!`" ++ [NL; NL]
                  ++ py "```" ++ [NL] ++ repeat 120%N 500 ++ py "..."
                  ++ [NL] ++ py "```")
                 MARKDOWN_V2 false)
            [111; 222; 333],
        inr tt).
Proof. split; vm_compute; reflexivity. Qed.

(* ================================================================= *)
(** ** The authorization gate *)

(** C2, as stated, fails on non-command text: [handle_message] answers
    a sender outside the admin list with no reply at all. *)
Lemma unauthorized_text_counterexample :
  is_admin bot1 (effective_chat_id from_stranger) = false
  /\ handle_message from_stranger no_args world0 bot1 = (bot1, [], inr tt)
  /\ trace (dispatch TextMessage from_stranger no_args world0 bot1)
     <> [ReplyText UNAUTHORIZED None].
Proof. repeat split. vm_compute. discriminate. Qed.

(** C2, amended: for a sender outside the admin list, each command
    handler ([/start], [/status], [/logs]) does nothing but reply with
    the unauthorized message, and the handler of non-command text does
    nothing at all (it sends no reply); in every case no collaborator,
    file or transport is reached, the bot is left unchanged, and no
    status or log text is sent. *)
Theorem unauthorized_rejected (w : World) (b : Bot) (i : Inbound)
    (update : Update) (context : Context) :
  is_admin b (effective_chat_id update) = false ->
  let r := dispatch i update context w b in
  final_bot r = b
  /\ non_replies (trace r) = []
  /\ match i with
     | TextMessage => trace r = [] /\ outcome r = inr tt
     | _ => trace r = [ReplyText UNAUTHORIZED None]
     end.
Proof.
  intros Hna r.
  assert (Hrun : r = match i with
                     | TextMessage => (b, [], inr tt)
                     | _ => (b, [ReplyText UNAUTHORIZED None],
                             reply_outcome w)
                     end).
  { subst r. unfold reply_outcome.
    destruct i; cbn [dispatch];
      unfold start_command, status_command, logs_command, handle_message;
      unfold bind at 1; unfold self at 1; cbn beta iota; rewrite Hna;
      cbn [negb]; unfold reply_text, bind, emit, world, raise, ret;
      destruct (reply_text_raises w); reflexivity. }
  rewrite Hrun. destruct i; repeat split.
Qed.

Lemma unauthorized_rejected_witness :
  is_admin bot1 (effective_chat_id from_stranger) = false
  /\ trace (status_command from_stranger no_args world0 bot1)
     = [ReplyText (py "❌ Unauthorized access") None]
  /\ trace (handle_message from_stranger no_args world0 bot1) = [].
Proof.
  split; [reflexivity|]. split.
  - destruct (unauthorized_rejected world0 bot1 CmdStatus from_stranger
                no_args eq_refl) as (_ & _ & H). exact H.
  - destruct (unauthorized_rejected world0 bot1 TextMessage from_stranger
                no_args eq_refl) as (_ & _ & H & _). exact H.
Defined.

(* ================================================================= *)
(** ** The status command *)

(** C1, as stated, fails: with the storage collaborator down, [/status]
    from an admin raises the storage error and sends no reply. *)
Lemma status_storage_failure_counterexample :
  is_admin bot1 (effective_chat_id from_admin) = true
  /\ storage_get_otp_count world_storage_down = inl storage_down
  /\ status_command from_admin no_args world_storage_down bot1
     = (bot1, [StorageGetOtpCount], inl storage_down)
  /\ replies (trace (status_command from_admin no_args
                                    world_storage_down bot1)) = [].
Proof. repeat split. Qed.

(** C1, amended: when the storage collaborator's count operation fails
    during [/status] from an admin, the handler raises that failure and
    sends no reply (no degraded snapshot is produced); when the count
    succeeds, the single reply ends with the line [Total OTPs: n]. *)
Theorem status_command_storage (w : World) (b : Bot) (update : Update)
    (context : Context) :
  is_admin b (effective_chat_id update) = true ->
  (forall e, storage_get_otp_count w = inl e ->
     status_command update context w b = (b, [StorageGetOtpCount], inl e))
  /\ (forall n, storage_get_otp_count w = inr n ->
      exists text,
        status_command update context w b
        = (b, [StorageGetOtpCount;
               ReplyText (text ++ py "Total OTPs: " ++ str_of_int n ++ [NL])
                         (Some MARKDOWN_V2)],
           reply_outcome w)).
Proof.
  intro Ha. split.
  - intros e He. unfold status_command.
    unfold bind at 1; unfold self at 1; cbn beta iota. rewrite Ha.
    cbn [negb]. unfold bind at 1. rewrite get_uptime_run.
    cbn beta iota zeta. unfold bind at 1.
    unfold get_otp_count, bind, emit, world, raise, ret. rewrite He.
    reflexivity.
  - intros n Hn. eexists. unfold status_command.
    unfold bind at 1; unfold self at 1; cbn beta iota. rewrite Ha.
    cbn [negb]. unfold bind at 1. rewrite get_uptime_run.
    cbn beta iota zeta. unfold bind at 1.
    unfold get_otp_count, reply_text, reply_outcome.
    unfold bind, emit, world, raise, ret. rewrite Hn.
    destruct (reply_text_raises w); cbn [app]; reflexivity.
Qed.

Lemma status_command_storage_witness :
  is_admin bot1 (effective_chat_id from_admin) = true
  /\ status_command from_admin no_args world_storage_down bot1
     = (bot1, [StorageGetOtpCount], inl storage_down).
Proof.
  split; [reflexivity|].
  destruct (status_command_storage world_storage_down bot1 from_admin
              no_args eq_refl) as [H _].
  exact (H storage_down eq_refl).
Defined.

(** The end-to-end example of the specification. *)
Example status_command_example :
  trace (status_command from_admin no_args world0 bot1)
  = [StorageGetOtpCount;
     ReplyText (py "📊 *Bot Status*" ++ [NL; NL]
                ++ py "Monitoring: 🔴 Inactive" ++ [NL]
                ++ py "Uptime: 1d 1h 0m" ++ [NL]
                ++ py "Last Login: Never" ++ [NL]
                ++ py "Last Fetch: Never" ++ [NL]
                ++ py "Total OTPs: 7" ++ [NL])
               (Some MARKDOWN_V2)].
Proof. vm_compute. reflexivity. Qed.

(* ================================================================= *)
(** ** The log tail *)

Lemma slice_from_last (A : Type) (n : Z) (l : list A) :
  1 <= n -> slice_from (- n) l = last_n (Z.to_nat (Z.min n (len l))) l.
Proof.
  intro Hn. unfold slice_from, last_n, len.
  destruct (- n <? 0) eqn:E; [|lia]. f_equal. lia.
Qed.

Lemma last_n_split (A : Type) (k : nat) (l : list A) :
  (k <= length l)%nat ->
  l = firstn (length l - k) l ++ last_n k l /\ length (last_n k l) = k.
Proof.
  intro Hk. unfold last_n. split.
  - symmetry. apply firstn_skipn.
  - rewrite length_skipn. lia.
Qed.

Lemma last_n_nonempty (A : Type) (k : nat) (l : list A) :
  (1 <= k <= length l)%nat -> last_n k l <> [].
Proof.
  intros Hk E. destruct (last_n_split A k l) as [_ H]; [lia|].
  rewrite E in H. simpl in H. lia.
Qed.

(** The runs of the tail, for a line count of at least 1. *)
Lemma logs_tail_run (n : Z) (w : World) (b : Bot) :
  1 <= n ->
  let p := log_file_path w in
  logs_tail n w b
  = match fs w p with
    | Absent =>
        (b, [PathExists p; ReplyText (py "📄 Log file not found") None],
         reply_outcome w)
    | Unreadable e => (b, [PathExists p; OpenRead p], inl e)
    | TextFile [] =>
        (b, [PathExists p; OpenRead p;
             ReplyText (py "📄 Log file is empty") None],
         reply_outcome w)
    | TextFile ls =>
        (b, [PathExists p; OpenRead p;
             ReplyText
               (render_log_lines (last_n (Z.to_nat (Z.min n (len ls))) ls))
               (Some MARKDOWN_V2)],
         reply_outcome w)
    end.
Proof.
  intros Hn p. unfold logs_tail, path_exists, readlines, reply_text.
  unfold reply_outcome, bind, emit, world, raise, ret. cbn beta iota.
  fold p. destruct (fs w p) as [|ls|e] eqn:Hfs; cbn [negb app];
    rewrite ?Hfs; cbn beta iota.
  - destruct (reply_text_raises w); reflexivity.
  - rewrite slice_from_last by assumption.
    destruct ls as [|l0 ls'].
    + cbn. destruct (reply_text_raises w); reflexivity.
    + pose proof (last_n_nonempty _ (Z.to_nat (Z.min n (len (l0 :: ls'))))
                    (l0 :: ls')) as Hne.
      destruct (last_n _ (l0 :: ls')) as [|x t] eqn:El.
      * exfalso. apply Hne; [|reflexivity]. unfold len. cbn [length]. lia.
      * unfold render_log_lines.
        destruct (reply_text_raises w); reflexivity.
  - reflexivity.
Qed.

(** C3, as stated, fails for integers outside the range: [/logs 500]
    and [/logs 0] are answered with log lines (the last 100 at most,
    and the last one), not with the format error. *)
Lemma logs_out_of_range_counterexample :
  py_int (py "500") = Some 500
  /\ logs_command from_admin (mk_Context [py "500"])
                  (world_logs five_lines) bot1
     = (bot1,
        [PathExists (py "./logs/bot.log"); OpenRead (py "./logs/bot.log");
         ReplyText (render_log_lines five_lines) (Some MARKDOWN_V2)],
        inr tt)
  /\ py_int (py "0") = Some 0
  /\ logs_command from_admin (mk_Context [py "0"])
                  (world_logs five_lines) bot1
     = (bot1,
        [PathExists (py "./logs/bot.log"); OpenRead (py "./logs/bot.log");
         ReplyText (render_log_lines [py "five" ++ [NL]])
                   (Some MARKDOWN_V2)],
        inr tt).
Proof. repeat split; vm_compute; reflexivity. Qed.

(** C3, amended: an argument that [int()] refuses is answered with the
    format error and nothing else is done (the log file is neither
    looked up nor read); an integer argument [v] is never refused: it is
    clamped to [max 1 (min v 100)], that is 1 below the range, 100
    above it and [v] inside, and the tail is read with the clamped
    count, so that at most that many lines are shown. *)
Theorem logs_command_argument (w : World) (b : Bot) (update : Update)
    (context : Context) (a : pystr) (rest : list pystr) :
  is_admin b (effective_chat_id update) = true ->
  args context = a :: rest ->
  (py_int a = None ->
     logs_command update context w b
     = (b, [ReplyText INVALID_NUMBER None], reply_outcome w))
  /\ (forall v, py_int a = Some v ->
      let n := Z.max 1 (Z.min v 100) in
      let p := log_file_path w in
      1 <= n <= 100
      /\ (v < 1 -> n = 1) /\ (100 < v -> n = 100)
      /\ (1 <= v <= 100 -> n = v)
      /\ logs_command update context w b = logs_tail n w b
      /\ (forall l0 ls, fs w p = TextFile (l0 :: ls) ->
            trace (logs_command update context w b)
            = [PathExists p; OpenRead p;
               ReplyText
                 (render_log_lines
                    (last_n (Z.to_nat (Z.min n (len (l0 :: ls))))
                            (l0 :: ls)))
                 (Some MARKDOWN_V2)])).
Proof.
  intros Ha Hargs.
  assert (Hrun : logs_command update context w b
                 = match py_int a with
                   | Some v => logs_tail (Z.max 1 (Z.min v 100)) w b
                   | None => reply_text INVALID_NUMBER None w b
                   end).
  { unfold logs_command. unfold bind at 1; unfold self at 1.
    cbn beta iota. rewrite Ha, Hargs. cbn [negb].
    destruct (py_int a);
      [destruct (logs_tail _ w b) as [[b1 t1] r1]
      |destruct (reply_text _ _ w b) as [[b1 t1] r1]]; reflexivity. }
  split.
  - intro Hnone. rewrite Hrun, Hnone.
    unfold reply_text, reply_outcome, bind, emit, world, raise, ret.
    destruct (reply_text_raises w); reflexivity.
  - intros v Hv n p. rewrite Hrun, Hv. fold n.
    repeat split; try lia.
    intros l0 ls Hfs. rewrite logs_tail_run by lia. fold p. rewrite Hfs.
    reflexivity.
Qed.

Lemma logs_command_argument_witness :
  is_admin bot1 (effective_chat_id from_admin) = true
  /\ py_int (py "abc") = None
  /\ logs_command from_admin (mk_Context [py "abc"])
                  (world_logs five_lines) bot1
     = (bot1, [ReplyText (py "❌ Invalid number format") None], inr tt).
Proof.
  split; [reflexivity|]. split; [reflexivity|].
  destruct (logs_command_argument (world_logs five_lines) bot1 from_admin
              (mk_Context [py "abc"]) (py "abc") [] eq_refl eq_refl)
    as [H _].
  exact (H eq_refl).
Defined.

(** C6: for [/logs] from an admin with a line count [n] in 1..100 (the
    default 20, or an argument that parses to [n]): a missing log file
    gives the not-found reply; a file with no line gives the empty
    reply; any other file gives one reply holding, inside its code
    block, the last [min n total] lines of the file, joined in the
    order they have in the file. *)
Theorem logs_command_tail (w : World) (b : Bot) (update : Update)
    (context : Context) (n : Z) :
  is_admin b (effective_chat_id update) = true ->
  (args context = [] /\ n = 20)
  \/ (exists a rest, args context = a :: rest /\ py_int a = Some n
                     /\ 1 <= n <= 100) ->
  let p := log_file_path w in
  let r := logs_command update context w b in
  (fs w p = Absent ->
     trace r = [PathExists p; ReplyText (py "📄 Log file not found") None])
  /\ (fs w p = TextFile [] ->
      trace r = [PathExists p; OpenRead p;
                 ReplyText (py "📄 Log file is empty") None])
  /\ (forall ls, fs w p = TextFile ls -> ls <> [] ->
      exists older tail,
        ls = older ++ tail
        /\ len tail = Z.min n (len ls)
        /\ trace r
           = [PathExists p; OpenRead p;
              ReplyText
                (py "📄 *Last " ++ str_of_int (len tail)
                 ++ py " log lines*" ++ [NL; NL] ++ py "```" ++ [NL]
                 ++ join tail ++ [NL] ++ py "```")
                (Some MARKDOWN_V2)]).
Proof.
  intros Ha Hn p r.
  assert (Hrange : 1 <= n <= 100).
  { destruct Hn as [[_ ->]|(a & rest & _ & _ & H)]; [lia|exact H]. }
  assert (Hrun : r = logs_tail n w b).
  { subst r. unfold logs_command. unfold bind at 1; unfold self at 1.
    cbn beta iota. rewrite Ha. cbn [negb].
    destruct Hn as [[Hargs ->]|(a & rest & Hargs & Hv & _)];
      rewrite Hargs; [|rewrite Hv;
                        replace (Z.max 1 (Z.min n 100)) with n by lia];
      destruct (logs_tail _ w b) as [[b1 t1] r1]; reflexivity. }
  rewrite Hrun, logs_tail_run by lia. fold p.
  split; [intros ->; reflexivity|].
  split; [intros ->; reflexivity|].
  intros ls Hfs Hne. rewrite Hfs.
  destruct ls as [|l0 ls']; [congruence|].
  set (ls := l0 :: ls') in *.
  set (k := Z.to_nat (Z.min n (len ls))).
  assert (Hk : (k <= length ls)%nat) by (unfold k, len; lia).
  destruct (last_n_split _ k ls Hk) as [Hsplit Hlen].
  exists (firstn (length ls - k) ls), (last_n k ls).
  split; [exact Hsplit|]. split.
  - unfold len at 1. rewrite Hlen. unfold k, len. lia.
  - reflexivity.
Qed.

Lemma logs_command_tail_witness :
  is_admin bot1 (effective_chat_id from_admin) = true
  /\ py_int (py "20") = Some 20
  /\ trace (logs_command from_admin (mk_Context [py "20"])
                         (world_logs five_lines) bot1)
     = [PathExists (py "./logs/bot.log"); OpenRead (py "./logs/bot.log");
        ReplyText
          (py "📄 *Last 5 log lines*" ++ [NL; NL] ++ py "```" ++ [NL]
           ++ py "one" ++ [NL] ++ py "two" ++ [NL] ++ py "three" ++ [NL]
           ++ py "four" ++ [NL] ++ py "five" ++ [NL] ++ [NL] ++ py "```")
          (Some MARKDOWN_V2)].
Proof.
  split; [reflexivity|]. split; [reflexivity|].
  pose proof (logs_command_tail (world_logs five_lines) bot1 from_admin
                (mk_Context [py "20"]) 20 eq_refl) as H.
  destruct H as (_ & _ & H).
  - right. exists (py "20"), []. repeat split; try reflexivity; lia.
  - destruct (H five_lines eq_refl) as (older & tail & _ & _ & _).
    + discriminate.
    + reflexivity.
Defined.

(* ================================================================= *)
(** * Further properties of the code *)

(* ================================================================= *)
(** ** The sanitizer, continued *)

Lemma escape_head_not_reserved (t : pystr) (c : N) (r : pystr) :
  flat_map escape_char t = c :: r -> reserved c = false.
Proof.
  destruct t as [|x t]; [discriminate|].
  cbn [flat_map]. unfold escape_char.
  destruct (reserved x) eqn:Hx; cbn [app]; intro H; injection H as <- _.
  - reflexivity.
  - exact Hx.
Qed.

Lemma unescape_escape (t : pystr) :
  unescape (flat_map escape_char t) = t.
Proof.
  induction t as [|x t IH]; [reflexivity|].
  cbn [flat_map]. unfold escape_char at 1.
  destruct (reserved x) eqn:Hx; cbn [app].
  - cbn [unescape]. rewrite N.eqb_refl, Hx, IH. reflexivity.
  - cbn [unescape]. destruct (x =? BACKSLASH)%N.
    + destruct (flat_map escape_char t) as [|c r] eqn:E.
      * cbn [unescape] in IH. now rewrite <- IH.
      * rewrite (escape_head_not_reserved t c r E), IH. reflexivity.
    + now rewrite IH.
Qed.

(** X1: the sanitizer loses nothing: two texts with the same escaped
    form are the same text. *)
Theorem escape_markdown_injective (a b : pystr) :
  escape_markdown a = escape_markdown b -> a = b.
Proof.
  rewrite !escape_markdown_flat_map. intro H.
  rewrite <- (unescape_escape a), <- (unescape_escape b).
  now rewrite H.
Qed.

Lemma escape_markdown_injective_witness :
  escape_markdown (py "v1.0 (beta)") = escape_markdown ([118; 49; 46; 48;
    32; 40; 98; 101; 116; 97; 41]%N)
  /\ py "v1.0 (beta)" = [118; 49; 46; 48; 32; 40; 98; 101; 116; 97; 41]%N.
Proof.
  split; [reflexivity|].
  apply (escape_markdown_injective (py "v1.0 (beta)")). reflexivity.
Defined.

Lemma length_escape_char (c : N) :
  length (escape_char c) = (1 + count reserved [c])%nat.
Proof.
  unfold escape_char, count. cbn [filter].
  destruct (reserved c); reflexivity.
Qed.

Lemma count_cons (p : N -> bool) (c : N) (t : pystr) :
  count p (c :: t) = (count p [c] + count p t)%nat.
Proof. change (c :: t) with ([c] ++ t). apply count_app. Qed.

Lemma length_escape (t : pystr) :
  length (flat_map escape_char t) = (length t + count reserved t)%nat.
Proof.
  induction t as [|c t IH]; [reflexivity|].
  cbn [flat_map]. rewrite length_app, length_escape_char, IH, (count_cons _ c t).
  cbn [length]. lia.
Qed.

Lemma count_le_length (p : N -> bool) (t : pystr) :
  (count p t <= length t)%nat.
Proof. unfold count. apply filter_length_le. Qed.

(** X2: the escaped text has one more character per reserved character
    of the input, so its length lies between the input's length and
    twice that; and escaping a concatenation is concatenating the
    escaped parts. *)
Theorem escape_markdown_length (text : pystr) :
  len (escape_markdown text)
  = len text + Z.of_nat (count reserved text)
  /\ len text <= len (escape_markdown text) <= 2 * len text
  /\ (forall a b,
        text = a ++ b ->
        escape_markdown text = escape_markdown a ++ escape_markdown b).
Proof.
  rewrite escape_markdown_flat_map. unfold len. rewrite length_escape.
  pose proof (count_le_length reserved text).
  repeat split; try lia.
  intros a b ->. rewrite !escape_markdown_flat_map. apply flat_map_app.
Qed.

Lemma count_reserved_escape (t : pystr) :
  count reserved (flat_map escape_char t) = count reserved t.
Proof.
  induction t as [|c t IH]; [reflexivity|].
  cbn [flat_map]. rewrite count_app, IH, (count_cons _ c t). f_equal.
  unfold escape_char, count. cbn [filter].
  destruct (reserved c) eqn:Hc; cbn [filter]; rewrite ?reserved_backslash,
    ?Hc; reflexivity.
Qed.

Lemma escape_plain_text (t : pystr) :
  count reserved t = 0%nat -> flat_map escape_char t = t.
Proof.
  induction t as [|c t IH]; [reflexivity|].
  rewrite (count_cons _ c t). intro H. cbn [flat_map].
  rewrite IH by lia. unfold escape_char.
  destruct (reserved c) eqn:Hc; [|reflexivity].
  unfold count in H. cbn [filter] in H. rewrite Hc in H. cbn in H. lia.
Qed.

(** X3: the sanitizer leaves a text as it is exactly when the text has
    no reserved character; and it is not idempotent: escaping an
    escaped text changes it again, unless the text had no reserved
    character. *)
Theorem escape_markdown_fixed_point (text : pystr) :
  (escape_markdown text = text <-> count reserved text = 0%nat)
  /\ (escape_markdown (escape_markdown text) = escape_markdown text
      <-> count reserved text = 0%nat).
Proof.
  assert (Hfix : forall t,
             flat_map escape_char t = t <-> count reserved t = 0%nat).
  { intro t. split; [|apply escape_plain_text].
    intro H. pose proof (length_escape t) as L. rewrite H in L. lia. }
  rewrite !escape_markdown_flat_map. split; [apply Hfix|].
  rewrite Hfix. now rewrite count_reserved_escape.
Qed.

Example escape_markdown_twice :
  escape_markdown (escape_markdown (py "a.b")) = py "a\\.b".
Proof. reflexivity. Qed.

(* ================================================================= *)
(** ** The uptime clock, continued *)

Lemma get_uptime_text (w : World) (b : Bot) :
  _get_uptime w b = (b, [], inr (uptime_text w b)).
Proof. unfold uptime_text. rewrite get_uptime_run. reflexivity. Qed.

(** X4: when the clock reads earlier than [start_time] (the elapsed
    time is negative), [_get_uptime] still returns a text: the negative
    day count is never shown, and the hours (0..23) and minutes (0..59)
    are what is left of the elapsed time once it is rounded down to
    whole days, so one second before the start reads [23h 59m]. *)
Theorem get_uptime_clock_before_start (w : World) (b : Bot) :
  let e := elapsed_seconds w b in
  e < 0 ->
  let h := (e mod 86400) / 3600 in
  let m := (e mod 3600) / 60 in
  0 <= h <= 23 /\ 0 <= m <= 59
  /\ _get_uptime w b
     = (b, [],
        inr (if 0 <? h
             then str_of_int h ++ py "h " ++ str_of_int m ++ py "m"
             else str_of_int m ++ py "m")).
Proof.
  intros e He h m.
  split; [subst h; Z.div_mod_to_equations; lia|].
  split; [subst m; Z.div_mod_to_equations; lia|].
  rewrite get_uptime_run. fold e. cbn zeta. fold h m.
  assert (Hd : (0 <? e / 86400) = false).
  { apply Z.ltb_ge. Z.div_mod_to_equations. lia. }
  rewrite Hd. reflexivity.
Qed.

Lemma get_uptime_clock_before_start_witness :
  elapsed_seconds world_set_back bot0 = -1
  /\ _get_uptime world_set_back bot0 = (bot0, [], inr (py "23h 59m")).
Proof.
  split; [reflexivity|].
  destruct (get_uptime_clock_before_start world_set_back bot0)
    as (_ & _ & H).
  - vm_compute. reflexivity.
  - rewrite H. reflexivity.
Defined.

(* ================================================================= *)
(** ** The handlers, run by run *)

Lemma reply_text_run (text : pystr) (pm : option ParseMode) (w : World)
    (b : Bot) :
  reply_text text pm w b = (b, [ReplyText text pm], reply_outcome w).
Proof.
  unfold reply_text, reply_outcome, bind, emit, world, raise, ret.
  destruct (reply_text_raises w); reflexivity.
Qed.

Lemma stranger_run (i : Inbound) (update : Update) (context : Context)
    (w : World) (b : Bot) :
  is_admin b (effective_chat_id update) = false ->
  dispatch i update context w b
  = match i with
    | TextMessage => (b, [], inr tt)
    | _ => (b, [ReplyText UNAUTHORIZED None], reply_outcome w)
    end.
Proof.
  intro Hna.
  destruct i; cbn [dispatch];
    unfold start_command, status_command, logs_command, handle_message;
    unfold bind at 1; unfold self at 1; cbn beta iota; rewrite Hna;
    cbn [negb]; rewrite ?reply_text_run; reflexivity.
Qed.

Lemma start_command_run (update : Update) (context : Context) (w : World)
    (b : Bot) :
  is_admin b (effective_chat_id update) = true ->
  exists text,
    start_command update context w b
    = (b, [ReplyText text (Some MARKDOWN_V2)], reply_outcome w).
Proof.
  intro Ha. eexists. unfold start_command.
  unfold bind at 1; unfold self at 1; cbn beta iota. rewrite Ha.
  cbn [negb]. unfold bind at 1. rewrite get_uptime_text.
  cbn beta iota zeta. rewrite reply_text_run. reflexivity.
Qed.

Lemma status_command_run (update : Update) (context : Context) (w : World)
    (b : Bot) :
  is_admin b (effective_chat_id update) = true ->
  exists text,
    status_command update context w b
    = match storage_get_otp_count w with
      | inl e => (b, [StorageGetOtpCount], inl e)
      | inr n =>
          (b, [StorageGetOtpCount;
               ReplyText (text ++ py "Total OTPs: " ++ str_of_int n ++ [NL])
                         (Some MARKDOWN_V2)],
           reply_outcome w)
      end.
Proof.
  intro Ha. eexists. unfold status_command.
  unfold bind at 1; unfold self at 1; cbn beta iota. rewrite Ha.
  cbn [negb]. unfold bind at 1. rewrite get_uptime_text.
  cbn beta iota zeta. unfold bind at 1.
  unfold get_otp_count, reply_text, reply_outcome.
  unfold bind, emit, world, raise, ret.
  destruct (storage_get_otp_count w) as [e|n]; cbn beta iota.
  - reflexivity.
  - destruct (reply_text_raises w); cbn [app]; reflexivity.
Qed.

Lemma logs_command_run (update : Update) (context : Context) (w : World)
    (b : Bot) :
  is_admin b (effective_chat_id update) = true ->
  logs_command update context w b
  = match args context with
    | [] => logs_tail 20 w b
    | a :: _ =>
        match py_int a with
        | Some v => logs_tail (Z.max 1 (Z.min v 100)) w b
        | None => (b, [ReplyText INVALID_NUMBER None], reply_outcome w)
        end
    end.
Proof.
  intro Ha. unfold logs_command.
  unfold bind at 1; unfold self at 1; cbn beta iota. rewrite Ha.
  cbn [negb]. destruct (args context) as [|a rest].
  - destruct (logs_tail 20 w b) as [[b1 t1] r1]. reflexivity.
  - destruct (py_int a) as [v|].
    + destruct (logs_tail _ w b) as [[b1 t1] r1]. reflexivity.
    + rewrite reply_text_run. reflexivity.
Qed.

Lemma handle_message_run (update : Update) (context : Context) (w : World)
    (b : Bot) :
  is_admin b (effective_chat_id update) = true ->
  handle_message update context w b
  = (b, [ReplyText HINT (Some MARKDOWN_V2)], reply_outcome w).
Proof.
  intro Ha. unfold handle_message.
  unfold bind at 1; unfold self at 1; cbn beta iota. rewrite Ha.
  cbn [negb]. rewrite reply_text_run. cbn [app]. unfold HINT. reflexivity.
Qed.

(** The line count [logs_command] settles on. *)
Lemma logs_command_count (update : Update) (context : Context) (w : World)
    (b : Bot) :
  is_admin b (effective_chat_id update) = true ->
  logs_command update context w b
  = (b, [ReplyText INVALID_NUMBER None], reply_outcome w)
  \/ exists n, 1 <= n <= 100 /\ logs_command update context w b
                                = logs_tail n w b.
Proof.
  intro Ha. rewrite (logs_command_run _ _ _ _ Ha).
  destruct (args context) as [|a rest].
  - right. exists 20. split; [lia|reflexivity].
  - destruct (py_int a) as [v|].
    + right. exists (Z.max 1 (Z.min v 100)). split; [lia|reflexivity].
    + left. reflexivity.
Qed.

(** Every run of a handler is some collaborator accesses followed by at
    most one reply. *)
Lemma dispatch_shape (i : Inbound) (update : Update) (context : Context)
    (w : World) (b : Bot) :
  let r := dispatch i update context w b in
  let p := log_file_path w in
  let admin := is_admin b (effective_chat_id update) in
  final_bot r = b
  /\ exists pre rep,
       trace r = pre ++ rep
       /\ (rep = [] \/ exists text pm, rep = [ReplyText text pm])
       /\ (pre = []
           \/ (i = CmdStatus /\ admin = true /\ pre = [StorageGetOtpCount])
           \/ (i = CmdLogs /\ admin = true
               /\ (pre = [PathExists p]
                   \/ (fs w p <> Absent /\ pre = [PathExists p; OpenRead p]))))
       /\ (rep = [] -> admin = true -> outcome r <> inr tt)
       /\ (rep <> [] -> outcome r = reply_outcome w).
Proof.
  intros r p admin. subst r admin.
  destruct (is_admin b (effective_chat_id update)) eqn:Ha.
  - destruct i; cbn [dispatch].
    + destruct (start_command_run update context w b Ha) as [text ->].
      split; [reflexivity|]. exists [], [ReplyText text (Some MARKDOWN_V2)].
      repeat split; eauto; congruence.
    + destruct (status_command_run update context w b Ha) as [text ->].
      destruct (storage_get_otp_count w) as [e|n].
      * split; [reflexivity|]. exists [StorageGetOtpCount], [].
        repeat split; eauto; try congruence. intros _ _. discriminate.
      * split; [reflexivity|]. eexists [StorageGetOtpCount], [ReplyText _ _].
        repeat split; eauto; congruence.
    + destruct (logs_command_count update context w b Ha)
        as [->|(n & Hn & ->)].
      * split; [reflexivity|]. exists [], [ReplyText INVALID_NUMBER None].
        repeat split; eauto; congruence.
      * rewrite logs_tail_run by lia. fold p.
        destruct (fs w p) as [|ls|e] eqn:Hfs.
        -- split; [reflexivity|].
           eexists [PathExists p], [ReplyText _ _].
           repeat split; eauto 7; congruence.
        -- assert (Hex : TextFile ls <> Absent) by discriminate.
           destruct ls as [|l0 ls']; (split; [reflexivity|]);
             eexists [PathExists p; OpenRead p], [ReplyText _ _];
             repeat split; eauto 8; congruence.
        -- split; [reflexivity|].
           exists [PathExists p; OpenRead p], [].
           repeat split; eauto 8; try congruence.
           ++ right. right. repeat split; eauto. right. split; [discriminate|reflexivity].
           ++ intros _ _. discriminate.
    + rewrite (handle_message_run update context w b Ha).
      split; [reflexivity|]. exists [], [ReplyText HINT (Some MARKDOWN_V2)].
      repeat split; eauto; congruence.
  - rewrite (stranger_run i update context w b Ha).
    destruct i; (split; [reflexivity|]);
      try (exists [], [ReplyText UNAUTHORIZED None];
           repeat split; eauto; congruence).
    exists [], []. repeat split; eauto; congruence.
Qed.

(** X5: no handler changes the bot, starts a broadcast or logs an
    error, whoever the sender and whatever the world. *)
Theorem handlers_keep_state (i : Inbound) (update : Update)
    (context : Context) (w : World) (b : Bot) :
  let r := dispatch i update context w b in
  final_bot r = b
  /\ send_attempts (trace r) = []
  /\ filter is_logger_error (trace r) = [].
Proof.
  intro r.
  destruct (dispatch_shape i update context w b)
    as (Hb & pre & rep & Ht & Hrep & Hpre & _).
  fold r in Hb, Ht. split; [exact Hb|]. rewrite Ht.
  rewrite send_attempts_app, filter_app.
  destruct Hrep as [->|(text & pm & ->)];
    destruct Hpre as [->|[(_ & _ & ->)|(_ & _ & [->|[_ ->]])]];
    split; reflexivity.
Qed.

(** X6: a handler sends at most one reply per update, and the reply is
    the last thing it does; a handler that returns normally to an admin
    has sent exactly one. *)
Theorem handlers_reply_at_most_once (i : Inbound) (update : Update)
    (context : Context) (w : World) (b : Bot) :
  let r := dispatch i update context w b in
  (length (replies (trace r)) <= 1)%nat
  /\ (forall text pm,
        In (ReplyText text pm) (trace r) ->
        exists pre, trace r = pre ++ [ReplyText text pm]
                    /\ replies pre = [])
  /\ (is_admin b (effective_chat_id update) = true ->
      outcome r = inr tt ->
      length (replies (trace r)) = 1%nat).
Proof.
  intro r.
  destruct (dispatch_shape i update context w b)
    as (_ & pre & rep & Ht & Hrep & Hpre & Hnone & _).
  fold r in Ht, Hnone. rewrite Ht. unfold replies. rewrite filter_app.
  assert (Hp : filter is_reply pre = []).
  { destruct Hpre as [->|[(_ & _ & ->)|(_ & _ & [->|[_ ->]])]];
      reflexivity. }
  assert (Hin : forall ev, In ev pre -> is_reply ev = false).
  { intros ev Hev.
    destruct (is_reply ev) eqn:E; [|reflexivity].
    assert (In ev (filter is_reply pre)) by (apply filter_In; auto).
    rewrite Hp in H. contradiction. }
  rewrite Hp. destruct Hrep as [->|(text & pm & ->)].
  - split; [cbn; lia|]. split.
    + intros text pm H. rewrite app_nil_r in H.
      specialize (Hin _ H). discriminate.
    + intros Ha Hout. exfalso. exact (Hnone eq_refl Ha Hout).
  - split; [cbn; lia|]. split; [|reflexivity].
    intros text' pm' H. apply in_app_or in H. destruct H as [H|[H|[]]].
    + specialize (Hin _ H). discriminate.
    + injection H as <- <-. exists pre. split; [reflexivity|exact Hp].
Qed.

(** X7: the storage collaborator is reached only by [/status] from an
    admin; the file system is reached only by [/logs] from an admin,
    only at the configured log path ([LOG_FILE], or [./logs/bot.log]
    when it is unset), and a file is opened only if it exists. *)
Theorem collaborators_reached_only_by (i : Inbound) (update : Update)
    (context : Context) (w : World) (b : Bot) :
  let r := dispatch i update context w b in
  (In StorageGetOtpCount (trace r) ->
     i = CmdStatus /\ is_admin b (effective_chat_id update) = true)
  /\ (forall path,
        In (PathExists path) (trace r) \/ In (OpenRead path) (trace r) ->
        i = CmdLogs /\ is_admin b (effective_chat_id update) = true
        /\ path = log_file_path w
        /\ (getenv_LOG_FILE w = None -> path = py "./logs/bot.log"))
  /\ (forall path, In (OpenRead path) (trace r) -> fs w path <> Absent).
Proof.
  intro r.
  destruct (dispatch_shape i update context w b)
    as (_ & pre & rep & Ht & Hrep & Hpre & _).
  fold r in Ht. rewrite Ht.
  assert (Hrep' : forall ev, In ev rep -> is_reply ev = true).
  { destruct Hrep as [->|(text & pm & ->)]; intros ev [].
    - subst ev. reflexivity.
    - contradiction. }
  assert (Hpath : forall path, path = log_file_path w ->
            getenv_LOG_FILE w = None -> path = py "./logs/bot.log").
  { intros path -> H. unfold log_file_path. now rewrite H. }
  split; [|split].
  - intro H. apply in_app_or in H. destruct H as [H|H].
    + destruct Hpre as [->|[(-> & Ha & _)|(_ & _ & [->|[_ ->]])]];
        cbn in H; intuition discriminate.
    + apply Hrep' in H. discriminate.
  - intros path [H|H]; apply in_app_or in H; destruct H as [H|H];
      try (apply Hrep' in H; discriminate);
      destruct Hpre as [->|[(_ & _ & ->)|(-> & Ha & [->|[_ ->]])]];
      cbn in H; repeat (destruct H as [H|H]); try discriminate;
      try contradiction; injection H as <-; auto.
  - intros path H. apply in_app_or in H; destruct H as [H|H];
      try (apply Hrep' in H; discriminate).
    destruct Hpre as [->|[(_ & _ & ->)|(-> & Ha & [->|[Hex ->]])]];
      cbn in H; repeat (destruct H as [H|H]); try discriminate;
      try contradiction. injection H as <-. exact Hex.
Qed.

(* ================================================================= *)
(** ** The log tail, continued *)

(** X8: whatever argument [/logs] is given by an admin (none, a number
    of any size or sign, or text), a log file with lines is answered
    either with the format error or with between 1 and 100 lines, and
    the lines shown are the end of the file, in file order. *)
Theorem logs_command_shows_at_most_100 (w : World) (b : Bot)
    (update : Update) (context : Context) (ls : list pystr) :
  is_admin b (effective_chat_id update) = true ->
  fs w (log_file_path w) = TextFile ls ->
  ls <> [] ->
  let p := log_file_path w in
  let r := logs_command update context w b in
  trace r = [ReplyText INVALID_NUMBER None]
  \/ exists older tail,
       ls = older ++ tail
       /\ 1 <= len tail <= 100
       /\ trace r = [PathExists p; OpenRead p;
                     ReplyText (render_log_lines tail) (Some MARKDOWN_V2)].
Proof.
  intros Ha Hfs Hne p r. subst r p.
  destruct (logs_command_count update context w b Ha)
    as [->|(n & Hn & ->)]; [left; reflexivity|right].
  rewrite logs_tail_run by lia. cbv zeta. rewrite Hfs.
  destruct ls as [|l0 ls']; [congruence|].
  set (l := l0 :: ls') in *.
  set (k := Z.to_nat (Z.min n (len l))).
  assert (Hl : 1 <= len l) by (unfold len, l; cbn [length]; lia).
  assert (Hk : (k <= length l)%nat) by (unfold k, len; lia).
  destruct (last_n_split _ k l Hk) as [Hsplit Hlen].
  exists (firstn (length l - k) l), (last_n k l).
  split; [exact Hsplit|]. split; [|reflexivity].
  unfold len at 1 2. rewrite Hlen. unfold k. lia.
Qed.

Lemma logs_command_shows_at_most_100_witness :
  is_admin bot1 (effective_chat_id from_admin) = true
  /\ len many_lines = 250
  /\ trace (logs_command from_admin (mk_Context [py "100000"])
                         (world_logs many_lines) bot1)
     = [PathExists (py "./logs/bot.log"); OpenRead (py "./logs/bot.log");
        ReplyText (render_log_lines (skipn 150 many_lines))
                  (Some MARKDOWN_V2)].
Proof.
  split; [reflexivity|]. split; [reflexivity|].
  assert (Hne : many_lines <> []) by (vm_compute; discriminate).
  destruct (logs_command_shows_at_most_100 (world_logs many_lines) bot1
              from_admin (mk_Context [py "100000"]) many_lines
              eq_refl eq_refl Hne) as [H|(older & tail & _ & _ & _)].
  - vm_compute in H. discriminate H.
  - vm_compute. reflexivity.
Defined.

(** X9: when the log file exists but cannot be opened, [/logs] from an
    admin (with no argument or a numeric one) raises the error of
    [open] and sends no reply. *)
Theorem logs_command_unreadable (w : World) (b : Bot) (update : Update)
    (context : Context) (e : exn) :
  is_admin b (effective_chat_id update) = true ->
  fs w (log_file_path w) = Unreadable e ->
  (args context = []
   \/ exists a rest v, args context = a :: rest /\ py_int a = Some v) ->
  logs_command update context w b
  = (b, [PathExists (log_file_path w); OpenRead (log_file_path w)], inl e).
Proof.
  intros Ha Hfs Hargs. rewrite (logs_command_run _ _ _ _ Ha).
  destruct Hargs as [->|(a & rest & v & -> & ->)];
    rewrite logs_tail_run by lia; cbv zeta; rewrite Hfs; reflexivity.
Qed.

Lemma logs_command_unreadable_witness :
  is_admin bot1 (effective_chat_id from_admin) = true
  /\ logs_command from_admin no_args world_unreadable bot1
     = (bot1, [PathExists (py "./logs/bot.log");
               OpenRead (py "./logs/bot.log")], inl permission_denied).
Proof.
  split; [reflexivity|].
  exact (logs_command_unreadable world_unreadable bot1 from_admin no_args
           permission_denied eq_refl eq_refl (or_introl eq_refl)).
Defined.

(* ================================================================= *)
(** ** The handlers on the authorized path *)

(** X10: [/start] from an admin reaches no collaborator and sends one
    reply in MarkdownV2: the banner, the status line ([Running] exactly
    when the bot is monitoring), the uptime, the sender's chat id and
    the list of six commands. *)
Theorem start_command_reply (w : World) (b : Bot) (update : Update)
    (context : Context) :
  is_admin b (effective_chat_id update) = true ->
  start_command update context w b
  = (b,
     [ReplyText
        (py "🤖 *iVASMS Telegram Bot*" ++ [NL; NL]
         ++ py "Status: "
         ++ (if is_monitoring b then py "🟢 Running" else py "🔴 Stopped")
         ++ [NL]
         ++ py "Uptime: " ++ uptime_text w b ++ [NL]
         ++ py "Admin Chat ID: `"
         ++ str_of_int (effective_chat_id update) ++ py "`" ++ [NL; NL]
         ++ py "Available commands:" ++ [NL]
         ++ py "• `/status` - Bot status" ++ [NL]
         ++ py "• `/config` - Configuration" ++ [NL]
         ++ py "• `/recent_otps` - Recent OTPs" ++ [NL]
         ++ py "• `/last_otp` - Last OTP" ++ [NL]
         ++ py "• `/new_otp` - Force fetch" ++ [NL]
         ++ py "• `/logs` - View logs" ++ [NL])
        (Some MARKDOWN_V2)],
     reply_outcome w).
Proof.
  intro Ha. unfold start_command.
  unfold bind at 1; unfold self at 1; cbn beta iota. rewrite Ha.
  cbn [negb]. unfold bind at 1. rewrite get_uptime_text.
  cbn beta iota zeta. rewrite reply_text_run. reflexivity.
Qed.

Lemma start_command_reply_witness :
  is_admin bot1 (effective_chat_id from_admin) = true
  /\ uptime_text world0 bot1 = py "1d 1h 0m"
  /\ replies (trace (start_command from_admin no_args world0 bot1))
     = trace (start_command from_admin no_args world0 bot1).
Proof.
  split; [reflexivity|]. split; [reflexivity|].
  rewrite (start_command_reply world0 bot1 from_admin no_args eq_refl).
  reflexivity.
Defined.

(** X11: [/status] from an admin, when the storage count succeeds with
    [n], asks the storage once and then sends one reply in MarkdownV2
    with the monitoring flag, the uptime, the last login and last
    fetch times ([Never] when unset; the year printed without padding,
    month, day, hour, minute and second on two digits) and the count. *)
Theorem status_command_reply (w : World) (b : Bot) (update : Update)
    (context : Context) (n : Z) :
  is_admin b (effective_chat_id update) = true ->
  storage_get_otp_count w = inr n ->
  status_command update context w b
  = (b,
     [StorageGetOtpCount;
      ReplyText
        (py "📊 *Bot Status*" ++ [NL; NL]
         ++ py "Monitoring: "
         ++ (if is_monitoring b then py "🟢 Active" else py "🔴 Inactive")
         ++ [NL]
         ++ py "Uptime: " ++ uptime_text w b ++ [NL]
         ++ py "Last Login: "
         ++ match last_login_time b with
            | Some t => strftime t
            | None => py "Never"
            end ++ [NL]
         ++ py "Last Fetch: "
         ++ match last_fetch_time b with
            | Some t => strftime t
            | None => py "Never"
            end ++ [NL]
         ++ py "Total OTPs: " ++ str_of_int n ++ [NL])
        (Some MARKDOWN_V2)],
     reply_outcome w).
Proof.
  intros Ha Hn. unfold status_command.
  unfold bind at 1; unfold self at 1; cbn beta iota. rewrite Ha.
  cbn [negb]. unfold bind at 1. rewrite get_uptime_text.
  cbn beta iota zeta. unfold bind at 1.
  unfold get_otp_count, reply_text, reply_outcome.
  unfold bind, emit, world, raise, ret. rewrite Hn. cbn beta iota.
  destruct (last_login_time b), (last_fetch_time b),
    (reply_text_raises w);
    repeat (cbn [app]; rewrite <- ?app_assoc, <- ?app_comm_cons);
    reflexivity.
Qed.

Lemma status_command_reply_witness :
  is_admin bot_dated (effective_chat_id from_admin) = true
  /\ storage_get_otp_count world0 = inr 7
  /\ trace (status_command from_admin no_args world0 bot_dated)
     = [StorageGetOtpCount;
        ReplyText (py "📊 *Bot Status*" ++ [NL; NL]
                   ++ py "Monitoring: 🟢 Active" ++ [NL]
                   ++ py "Uptime: 1d 1h 0m" ++ [NL]
                   ++ py "Last Login: 999-12-31 23:59:59" ++ [NL]
                   ++ py "Last Fetch: 2024-01-02 00:30:05" ++ [NL]
                   ++ py "Total OTPs: 7" ++ [NL])
                  (Some MARKDOWN_V2)].
Proof.
  split; [reflexivity|]. split; [reflexivity|].
  rewrite (status_command_reply world0 bot_dated from_admin no_args 7
             eq_refl eq_refl).
  vm_compute. reflexivity.
Defined.

(* ================================================================= *)
(** ** The notifications *)

Lemma send_admin_message_run (w : World) (b : Bot) (message : pystr)
    (pm : ParseMode) (silent : bool) :
  send_admin_message message pm silent w b
  = (b,
     match application b with
     | Some _ => broadcast_events w message pm silent O (admin_chat_ids b)
     | None => [LoggerError (py "Bot application not initialized")]
     end,
     inr tt).
Proof.
  unfold send_admin_message, bind, self. cbn [app].
  destruct (application b); [rewrite send_loop_run|]; reflexivity.
Qed.

Lemma send_error_message_run (w : World) (b : Bot) (error : exn)
    (context : pystr) :
  send_error_message error context w b
  = send_admin_message (error_report (exn_str error) (format_exc w))
                       MARKDOWN_V2 false w b.
Proof.
  unfold send_error_message, try_except, bind, world. cbn [app].
  rewrite send_admin_message_run. reflexivity.
Qed.

Lemma broadcast_events_sends (w : World) (message : pystr)
    (pm : ParseMode) (silent : bool) (k0 : nat) (ids : list Z) :
  forall chat_id t pm' silent',
    In (SendMessage chat_id t pm' silent')
       (broadcast_events w message pm silent k0 ids) ->
    t = message /\ pm' = pm /\ silent' = silent.
Proof.
  intros chat_id t pm' silent' H.
  unfold broadcast_events in H. apply in_flat_map in H.
  destruct H as ([k c] & _ & H). unfold delivery_events in H.
  cbn [fst snd] in H. destruct H as [H|H].
  - injection H as _ <- <- <-. repeat split.
  - destruct (bot_send_message w k c); cbn [In] in H;
      [destruct H as [H|[]]; discriminate H|contradiction].
Qed.

(** X12: on an initialised bot, [send_status_message] makes one
    delivery attempt per admin, in order, each with the same text: the
    emoji ([❌] for an error, [ℹ️] otherwise), a space and the message
    escaped, in MarkdownV2 with notifications on; it returns normally
    whichever deliveries fail. *)
Theorem send_status_message_broadcast (w : World) (b : Bot)
    (message : pystr) (is_error : bool) :
  application b <> None ->
  let text := (if is_error then py "❌" else py "ℹ️") ++ py " "
              ++ escape_markdown message in
  let r := send_status_message message is_error w b in
  trace r = broadcast_events w text MARKDOWN_V2 false O (admin_chat_ids b)
  /\ send_attempts (trace r) = admin_chat_ids b
  /\ (forall chat_id t pm silent,
        In (SendMessage chat_id t pm silent) (trace r) ->
        t = text /\ pm = MARKDOWN_V2 /\ silent = false)
  /\ outcome r = inr tt
  /\ final_bot r = b.
Proof.
  intros Happ text r. subst r. unfold send_status_message. fold text.
  rewrite send_admin_message_run.
  destruct (application b) as [a|]; [|contradiction].
  unfold trace, outcome, final_bot. cbn [fst snd].
  rewrite send_attempts_broadcast.
  split; [reflexivity|]. split; [reflexivity|].
  split; [|split; reflexivity].
  intros chat_id t pm silent H.
  exact (broadcast_events_sends w text MARKDOWN_V2 false O _ _ _ _ _ H).
Qed.

Lemma send_status_message_broadcast_witness :
  application bot1 <> None
  /\ trace (send_status_message (py "Login OK (2 new).") false
                                world_flaky bot1)
     = [ SendMessage 111 (py "ℹ️ Login OK \(2 new\)\.") MARKDOWN_V2 false;
         SendMessage 222 (py "ℹ️ Login OK \(2 new\)\.") MARKDOWN_V2 false;
         LoggerError
           (py "Failed to send message to admin 222: Timed out");
         SendMessage 333 (py "ℹ️ Login OK \(2 new\)\.") MARKDOWN_V2 false ].
Proof.
  assert (H : application bot1 <> None) by (vm_compute; discriminate).
  split; [exact H|].
  destruct (send_status_message_broadcast world_flaky bot1
              (py "Login OK (2 new).") false H) as (Ht & _).
  rewrite Ht. vm_compute. reflexivity.
Defined.

(** X13: [send_error_message] never raises and never changes the bot,
    whatever the error, the pending traceback, the state of the
    application and the outcome of the deliveries; before
    initialisation its only effect is one logged error, and afterwards
    it makes one delivery attempt per admin. *)
Theorem send_error_message_never_raises (w : World) (b : Bot)
    (error : exn) (context : pystr) :
  let r := send_error_message error context w b in
  outcome r = inr tt
  /\ final_bot r = b
  /\ (application b = None ->
      trace r = [LoggerError (py "Bot application not initialized")])
  /\ (application b <> None ->
      send_attempts (trace r) = admin_chat_ids b).
Proof.
  intro r. subst r. rewrite send_error_message_run, send_admin_message_run.
  unfold trace, outcome, final_bot. cbn [fst snd].
  repeat split.
  - intros ->. reflexivity.
  - intro H. destruct (application b); [|contradiction].
    apply send_attempts_broadcast.
Qed.

Lemma len_app (A : Type) (x y : list A) : len (x ++ y) = len x + len y.
Proof. unfold len. rewrite length_app. lia. Qed.

(** X14: the error report is 23 characters of framing, the escaped
    error text and the bounded trace; its length is therefore at most
    526 plus twice the length of the error text: the trace is bounded,
    the error text is not. *)
Theorem error_report_length (error stack_trace : pystr) :
  len (error_report error stack_trace)
  = 23 + len (escape_markdown error) + len (bounded_trace stack_trace)
  /\ len (bounded_trace stack_trace)
     = (if len stack_trace <=? 500 then len stack_trace else 503)
  /\ len (bounded_trace stack_trace) <= 503
  /\ len (error_report error stack_trace) <= 526 + 2 * len error.
Proof.
  assert (Hb : len (bounded_trace stack_trace)
               = if len stack_trace <=? 500 then len stack_trace else 503).
  { unfold bounded_trace.
    destruct (500 <? len stack_trace) eqn:E1;
      destruct (len stack_trace <=? 500) eqn:E2; try lia.
    rewrite len_app, len_firstn_500 by lia. reflexivity. }
  assert (Hr : len (error_report error stack_trace)
               = 23 + len (escape_markdown error)
                 + len (bounded_trace stack_trace)).
  { unfold error_report. rewrite !len_app.
    change (len (py "❌ *Error*")) with 9.
    change (len (py "`")) with 1. change (len (py "```")) with 3.
    change (len [NL; NL]) with 2. change (len [NL]) with 1. lia. }
  pose proof (escape_markdown_flat_map error) as He.
  pose proof (length_escape error) as Hl.
  pose proof (count_le_length reserved error) as Hc.
  assert (Hesc : len (escape_markdown error) <= 2 * len error).
  { rewrite He. unfold len. lia. }
  split; [exact Hr|]. split; [exact Hb|]. rewrite Hr, Hb.
  destruct (len stack_trace <=? 500) eqn:E1; split; lia.
Qed.

(* ================================================================= *)
(** ** [run] *)

Lemma send_status_message_run (w : World) (b : Bot) (message : pystr)
    (is_error : bool) :
  send_status_message message is_error w b
  = send_admin_message
      ((if is_error then py "❌" else py "ℹ️") ++ py " "
       ++ escape_markdown message) MARKDOWN_V2 false w b.
Proof. reflexivity. Qed.

Lemma broadcast_events_later (w : World) (message : pystr)
    (pm : ParseMode) (silent : bool) (n : nat) (ids : list Z) :
  forall k,
    broadcast_events (later n w) message pm silent k ids
    = broadcast_events w message pm silent (n + k) ids.
Proof.
  unfold broadcast_events.
  induction ids as [|c rest IH]; intro k; [reflexivity|].
  cbn [length seq combine flat_map fst snd].
  rewrite (IH (S k)), Nat.add_succ_r. reflexivity.
Qed.

(** X15: [run] on a bot that was never initialised does not poll and
    attempts no delivery: the start notice and the error report are
    both dropped with a logged error, and the [AttributeError] of the
    missing application is raised to the caller. *)
Theorem run_uninitialized (w : World) (b : Bot) (polling : option exn) :
  application b = None ->
  run polling w b
  = (b,
     [LoggerError (py "Bot application not initialized");
      LoggerError (py "Telegram bot error: " ++ exn_str NO_RUN_POLLING);
      LoggerError (py "Bot application not initialized")],
     inl NO_RUN_POLLING).
Proof.
  intro Happ. unfold run, try_except.
  unfold bind at 1. rewrite send_status_message_run, send_admin_message_run.
  rewrite Happ. unfold run_polling, bind at 1, self. rewrite Happ.
  unfold raise at 1. cbn beta iota.
  unfold bind at 1. cbn beta iota. unfold at_later.
  unfold bind at 1. unfold logger_error at 1, emit. cbn beta iota.
  unfold bind at 1. rewrite send_error_message_run, send_admin_message_run.
  rewrite Happ. unfold raise. cbn [app]. reflexivity.
Qed.

Lemma run_uninitialized_witness :
  application bot0 = None
  /\ outcome (run None world0 bot0) = inl NO_RUN_POLLING
  /\ send_attempts (trace (run None world0 bot0)) = [].
Proof.
  split; [reflexivity|].
  rewrite (run_uninitialized world0 bot0 None eq_refl).
  split; vm_compute; reflexivity.
Defined.

(** X16: [run] on an initialised bot with [n] admins first announces
    the start to every admin (delivery attempts 0 to n-1).  If polling
    then returns, [run] returns.  If polling raises [e], [run] logs it,
    sends every admin the error report of [e] (delivery attempts n to
    2n-1, which fail or succeed independently of the first n) and
    raises [e] again: the caller sees the failure that stopped the
    bot, whichever of the 2n deliveries failed. *)
Theorem run_reports_and_reraises (w : World) (b : Bot)
    (polling : option exn) :
  application b <> None ->
  let n := length (admin_chat_ids b) in
  let started := py "ℹ️" ++ py " " ++ escape_markdown (py "Bot started") in
  let notice :=
    broadcast_events w started MARKDOWN_V2 false O (admin_chat_ids b) in
  match polling with
  | None => run polling w b = (b, notice, inr tt)
  | Some e =>
      run polling w b
      = (b,
         notice
         ++ LoggerError (py "Telegram bot error: " ++ exn_str e)
         :: broadcast_events w
              (error_report (exn_str e) (format_exc w))
              MARKDOWN_V2 false n (admin_chat_ids b),
         inl e)
      /\ send_attempts (trace (run polling w b))
         = admin_chat_ids b ++ admin_chat_ids b
  end.
Proof.
  intros Happ n started notice.
  assert (Hrun : run polling w b
                 = match polling with
                   | None => (b, notice, inr tt)
                   | Some e =>
                       (b,
                        notice
                        ++ LoggerError (py "Telegram bot error: "
                                        ++ exn_str e)
                        :: broadcast_events w
                             (error_report (exn_str e) (format_exc w))
                             MARKDOWN_V2 false n (admin_chat_ids b),
                        inl e)
                   end).
  { unfold run, try_except.
    unfold bind at 1. rewrite send_status_message_run, send_admin_message_run.
    unfold run_polling, bind at 1, self.
    destruct (application b) as [a|] eqn:Ea; [|contradiction].
    destruct polling as [e|].
    - unfold raise at 1. cbn beta iota.
      unfold bind at 1. cbn beta iota. unfold at_later.
      unfold bind at 1. unfold logger_error at 1, emit. cbn beta iota.
      unfold bind at 1.
      rewrite send_error_message_run, send_admin_message_run, Ea.
      rewrite broadcast_events_later, Nat.add_0_r.
      unfold raise. cbn [app]. rewrite ?app_nil_r. reflexivity.
    - unfold ret. cbn [app]. rewrite ?app_nil_r. reflexivity. }
  rewrite Hrun. destruct polling as [e|]; [|reflexivity].
  split; [reflexivity|]. unfold trace. cbn [fst snd].
  rewrite send_attempts_app.
  change (LoggerError ?m :: ?t) with ([LoggerError m] ++ t).
  rewrite send_attempts_app. unfold notice.
  rewrite !send_attempts_broadcast. reflexivity.
Qed.

(** The start notice reaches the second admin and the error report
    does not: the fifth delivery attempt of the run fails. *)
Lemma run_reports_and_reraises_witness :
  application bot1 <> None
  /\ outcome (run (Some storage_down) world_fifth_fails bot1)
     = inl storage_down
  /\ send_attempts (trace (run (Some storage_down) world_fifth_fails bot1))
     = [111; 222; 333; 111; 222; 333]
  /\ filter is_logger_error
       (trace (run (Some storage_down) world_fifth_fails bot1))
     = [LoggerError (py "Telegram bot error: storage unavailable");
        LoggerError (py "Failed to send message to admin 222: Timed out")].
Proof.
  assert (H : application bot1 <> None) by (vm_compute; discriminate).
  split; [exact H|].
  pose proof (run_reports_and_reraises world_fifth_fails bot1
                (Some storage_down) H) as [Hrun Hatt].
  split; [rewrite Hrun; reflexivity|].
  split; [rewrite Hatt; reflexivity|].
  rewrite Hrun. vm_compute. reflexivity.
Defined.

(* ================================================================= *)
(** ** [initialize] *)


(* ================================================================= *)
(** ** Further runs on concrete inputs *)

(** [/logs] with a count typed in Arabic-Indic digits. *)
Example logs_command_arabic_digits :
  trace (logs_command from_admin (mk_Context [[1635]%N])
                      (world_logs five_lines) bot1)
  = [PathExists (py "./logs/bot.log"); OpenRead (py "./logs/bot.log");
     ReplyText (render_log_lines [py "three" ++ [NL]; py "four" ++ [NL];
                                  py "five" ++ [NL]])
               (Some MARKDOWN_V2)].
Proof. vm_compute. reflexivity. Qed.

(** [/logs] with a separator U+001C before the digits. *)
Example logs_command_separator :
  trace (logs_command from_admin (mk_Context [[28; 49; 50]%N])
                      (world_logs five_lines) bot1)
  = [ReplyText (py "❌ Invalid number format") None].
Proof. vm_compute. reflexivity. Qed.
